(** * AutoMind: the fatigue analyzer of [automind.py] and its key handling

    A shallow embedding of [FatigueAnalyzer] (the 3-second analysis tick)
    and of the key handling of [DemoUI.run], with the properties the
    specification states about them.

    Conventions.
    - Python [float] values (clock readings, steering values, the simulation
      speed) are IEEE binary64 numbers: Rocq's primitive [float].
    - Python [int] values (the yawn count, buffer lengths) are [Z].
    - The [np.float32] audio samples and NumPy's vectorised operations on
      them belong to NumPy, not to this program: they are taken through the
      interface [Numpy]; [Binary32] gives a concrete instance.
    - [time.time()] and the [random] module are inputs of a tick ([TickEnv]).
    - The strings naming a fatigue level or a driver state are enumerations. *)

From Stdlib Require Import ZArith List Bool Lia.
From Stdlib Require String.
From Stdlib Require Import Uint63 PrimFloat SpecFloat FloatOps FloatAxioms.
Import ListNotations.

Set Warnings "-inexact-float".
Local Open Scope Z_scope.

(** ** Python float operations that Rocq's primitive floats do not name *)

Module PyFloat.

(** C's [fmod]: the exact remainder of [v / w], carrying the sign of [v]. *)
Definition fmod (v w : float) : float :=
  match Prim2SF v, Prim2SF w with
  | S754_nan, _ | _, S754_nan => nan
  | S754_infinity _, _ => nan
  | _, S754_zero _ => nan
  | S754_zero _, _ => v
  | S754_finite _ _ _, S754_infinity _ => v
  | S754_finite s m1 e1, S754_finite _ m2 e2 =>
      let e := Z.min e1 e2 in
      match Z.rem (Zpos m1 * 2 ^ (e1 - e)) (Zpos m2 * 2 ^ (e2 - e)) with
      | Zpos r => SF2Prim (S754_finite s r e)
      | _ => if s then neg_zero else zero
      end
  end.

(** [v % w] on Python floats ([float_rem] of CPython): the remainder takes
    the sign of the divisor.  A zero divisor raises [ZeroDivisionError] in
    Python; no call of this program has one, and [nan] stands for it. *)
Definition rem (v w : float) : float :=
  let md := fmod v w in
  if is_zero md then (if get_sign w then neg_zero else zero)
  else if negb (Bool.eqb (w <? 0)%float (md <? 0)%float) then (md + w)%float
  else md.

(** [min(a, b)] and [max(a, b)] of Python: the first argument is kept
    unless the second is strictly smaller (larger). *)
Definition min (a b : float) : float := if (b <? a)%float then b else a.
Definition max (a b : float) : float := if (a <? b)%float then b else a.

(** An [int] operand of a float operation, as the float it is converted
    to (exact for the small constants of this program). *)
Definition of_int (z : Z) : float := of_uint63 (Uint63.of_Z z).

End PyFloat.

(** ** The [random] module, as a function of the draw of [random.random()] *)

Module PyRandom.

(** [random.uniform(a, b)] is [a + (b - a) * random()]. *)
Definition uniform (a b r : float) : float := (a + (b - a) * r)%float.

(** [random.choices([x, y], weights=[w1, w2])[0]]: the cumulative weights
    are [w1] and [w1 + w2], and the draw scaled by their total is bisected
    among them. *)
Definition choices2 {A : Type} (x y : A) (w1 w2 : Z) (r : float) : A :=
  let total := (PyFloat.of_int (w1 + w2) + 0.0)%float in
  if (r * total <? PyFloat.of_int w1)%float then x else y.

End PyRandom.

(** ** NumPy, as far as the analyzer uses it *)

(** [float32] is the type of an [np.float32]; an array of them is a list.
    [np.concatenate] is [++], [len] is [length], and
    [np.array([], dtype=np.float32)] is [[]]. *)
Class Numpy : Type := {
  float32 : Type;
  (** [x ** 2] on one element; [arr ** 2] applies it to each *)
  f32_square : float32 -> float32;
  (** [np.mean(arr)] *)
  np_mean : list float32 -> float32;
  (** [e > t] for an [np.float32] [e] and a Python float [t] *)
  f32_gt : float32 -> float -> bool;
  (** [np.sin(x)] on a Python float *)
  np_sin : float -> float
}.

Definition np_square `{Numpy} (arr : list float32) : list float32 :=
  map f32_square arr.

(** IEEE binary32 samples on the Standard Library's [spec_float], the mean
    summed in index order.  The sine of the C library is a parameter. *)
Module Binary32.

Definition prec : Z := 24.
Definition emax : Z := 128.

Definition zero : spec_float := S754_zero false.
Definition add : spec_float -> spec_float -> spec_float := SFadd prec emax.
Definition mul : spec_float -> spec_float -> spec_float := SFmul prec emax.
Definition div : spec_float -> spec_float -> spec_float := SFdiv prec emax.
Definition of_Z (z : Z) : spec_float := binary_normalize prec emax z 0 false.

Definition sum (arr : list spec_float) : spec_float := fold_left add arr zero.
Definition mean (arr : list spec_float) : spec_float :=
  div (sum arr) (of_Z (Z.of_nat (length arr))).

(** Every binary32 number is a binary64 number: the comparison with a
    Python float is made there. *)
Definition gt (e : spec_float) (t : float) : bool := (t <? SF2Prim e)%float.

Definition numpy (sin : float -> float) : Numpy :=
  {| float32 := spec_float;
     f32_square := fun x => mul x x;
     np_mean := mean;
     f32_gt := gt;
     np_sin := sin |}.

(** A stand-in for the sine in closed examples: [x - x^3/6]. *)
Definition sin3 (x : float) : float := (x - x * x * x / 6)%float.

End Binary32.

(** ** Constants of [automind.py] *)

Definition AUDIO_SAMPLE_RATE : Z := 16000.
Definition AUDIO_CHUNK : Z := 1024.
Definition YAWN_COUNT_THRESHOLD : Z := 3.
Definition YAWN_ENERGY_THRESHOLD : float := 0.02.

(** ** [collections.deque(maxlen=n)] *)

Module Deque.

(** [d.append(x)]: the item is added on the right, and when the length
    then exceeds [maxlen] the leftmost item is dropped. *)
Definition append {A : Type} (maxlen : nat) (d : list A) (x : A) : list A :=
  let d' := d ++ [x] in
  if (maxlen <? length d')%nat then tl d' else d'.

(** Appending the items of [xs] one after the other. *)
Definition extend {A : Type} (maxlen : nat) (d xs : list A) : list A :=
  fold_left (append maxlen) xs d.

(** The last [n] items of [l], all of [l] when it has no more than [n]. *)
Definition lastn {A : Type} (n : nat) (l : list A) : list A :=
  skipn (length l - n) l.

End Deque.

(** ** The state of [FatigueAnalyzer] *)

Inductive FatigueLevel : Type := NORMAL | WARNING | CRITICAL.

(** The six labels of [driver_state]. *)
Inductive DriverState : Type :=
| Focused            (* "专注驾驶" *)
| SlightlyDistracted (* "轻微走神" *)
| Distracted         (* "走神" *)
| Microsleep         (* "短暂瞌睡" *)
| Drowsy             (* "瞌睡" *)
| SeverelyDrowsy.    (* "严重瞌睡" *)

(** What one call of [update] reads from outside the analyzer. *)
Record TickEnv : Type := {
  clock : float;         (* [time.time()] on entry, [current_time] *)
  clock_steer : float;   (* [time.time()] inside the steering formula *)
  rand_branch : float;   (* [random.random()] choosing the steering branch *)
  rand_uniform : float;  (* the draw of [random.uniform] *)
  rand_choice : float    (* the draw of [random.choices] *)
}.

Section Analyzer.

Context {N : Numpy}.

(** The fields of [__init__], the handle [voice_engine] apart. *)
Record FatigueAnalyzer : Type := {
  fatigue_level : FatigueLevel;
  yawn_count : Z;
  last_update : float;
  steering_value : float;
  driver_state : DriverState;
  audio_buffer : list float32;
  last_alert_time : float;
  torque_history : list float;   (* [deque(maxlen=100)] *)
  simulation_speed : float
}.

Definition TORQUE_MAXLEN : nat := 100.

(** [FatigueAnalyzer()]: [__init__] reads the clock twice, [t] for
    [last_update] and [t_alert] for [last_alert_time]. *)
Definition init (t t_alert : float) : FatigueAnalyzer :=
  {| fatigue_level := NORMAL;
     yawn_count := 0;
     last_update := t;
     steering_value := 0.0;
     driver_state := Focused;
     audio_buffer := [];
     last_alert_time := t_alert;
     torque_history := [];
     simulation_speed := 1.0 |}.

Definition set_fatigue_level (v : FatigueLevel) (s : FatigueAnalyzer) :=
  {| fatigue_level := v; yawn_count := yawn_count s;
     last_update := last_update s; steering_value := steering_value s;
     driver_state := driver_state s; audio_buffer := audio_buffer s;
     last_alert_time := last_alert_time s;
     torque_history := torque_history s;
     simulation_speed := simulation_speed s |}.

Definition set_yawn_count (v : Z) (s : FatigueAnalyzer) :=
  {| fatigue_level := fatigue_level s; yawn_count := v;
     last_update := last_update s; steering_value := steering_value s;
     driver_state := driver_state s; audio_buffer := audio_buffer s;
     last_alert_time := last_alert_time s;
     torque_history := torque_history s;
     simulation_speed := simulation_speed s |}.

Definition set_last_update (v : float) (s : FatigueAnalyzer) :=
  {| fatigue_level := fatigue_level s; yawn_count := yawn_count s;
     last_update := v; steering_value := steering_value s;
     driver_state := driver_state s; audio_buffer := audio_buffer s;
     last_alert_time := last_alert_time s;
     torque_history := torque_history s;
     simulation_speed := simulation_speed s |}.

Definition set_steering (v : float) (d : DriverState) (s : FatigueAnalyzer) :=
  {| fatigue_level := fatigue_level s; yawn_count := yawn_count s;
     last_update := last_update s; steering_value := v;
     driver_state := d; audio_buffer := audio_buffer s;
     last_alert_time := last_alert_time s;
     torque_history := torque_history s;
     simulation_speed := simulation_speed s |}.

Definition set_audio_buffer (v : list float32) (s : FatigueAnalyzer) :=
  {| fatigue_level := fatigue_level s; yawn_count := yawn_count s;
     last_update := last_update s; steering_value := steering_value s;
     driver_state := driver_state s; audio_buffer := v;
     last_alert_time := last_alert_time s;
     torque_history := torque_history s;
     simulation_speed := simulation_speed s |}.

Definition set_torque_history (v : list float) (s : FatigueAnalyzer) :=
  {| fatigue_level := fatigue_level s; yawn_count := yawn_count s;
     last_update := last_update s; steering_value := steering_value s;
     driver_state := driver_state s; audio_buffer := audio_buffer s;
     last_alert_time := last_alert_time s;
     torque_history := v;
     simulation_speed := simulation_speed s |}.

Definition set_simulation_speed (v : float) (s : FatigueAnalyzer) :=
  {| fatigue_level := fatigue_level s; yawn_count := yawn_count s;
     last_update := last_update s; steering_value := steering_value s;
     driver_state := driver_state s; audio_buffer := audio_buffer s;
     last_alert_time := last_alert_time s;
     torque_history := torque_history s;
     simulation_speed := v |}.

(** [add_audio_data] *)
Definition add_audio_data (audio_data : list float32) (s : FatigueAnalyzer) :=
  set_audio_buffer (audio_buffer s ++ audio_data) s.

(** *** The steps of [update] *)

(** Lines 72-74: with at least three seconds of samples buffered, the
    energy is the mean of the squared buffer; otherwise there is none. *)
Definition drained_energy (buf : list float32) : option float32 :=
  if AUDIO_SAMPLE_RATE * 3 <=? Z.of_nat (length buf)
  then Some (np_mean (np_square buf))
  else None.

(** Lines 71-82, yawn detection. *)
Definition detect_yawn (s : FatigueAnalyzer) : FatigueAnalyzer :=
  match drained_energy (audio_buffer s) with
  | Some energy =>
      let s1 := if f32_gt energy YAWN_ENERGY_THRESHOLD
                then set_yawn_count (yawn_count s + 1) s
                else s in
      set_audio_buffer [] s1
  | None => s
  end.

(** Lines 85-103, the simulated steering wheel, from the fatigue level
    of the previous tick. *)
Definition simulate_steering (env : TickEnv) (s : FatigueAnalyzer)
  : FatigueAnalyzer :=
  let speed := simulation_speed s in
  match fatigue_level s with
  | NORMAL =>
      set_steering
        (np_sin (clock_steer env * 1.5 * speed) * 1.2
         + PyRandom.uniform (-0.3) 0.3 (rand_uniform env))%float
        (PyRandom.choices2 Focused SlightlyDistracted 8 2 (rand_choice env))
        s
  | WARNING =>
      set_steering
        (if (rand_branch env <? 0.7)%float
         then (np_sin (clock_steer env * 0.8 * speed) * 0.8
               + PyRandom.uniform (-0.2) 0.2 (rand_uniform env))%float
         else PyRandom.uniform (-2.0) 2.0 (rand_uniform env))
        (PyRandom.choices2 Distracted Microsleep 7 3 (rand_choice env))
        s
  | CRITICAL =>
      set_steering
        (if (rand_branch env <? 0.9)%float
         then 0.0%float
         else PyRandom.uniform (-3.0) 3.0 (rand_uniform env))
        (PyRandom.choices2 Drowsy SeverelyDrowsy 6 4 (rand_choice env))
        s
  end.

(** Line 106. *)
Definition record_steering (s : FatigueAnalyzer) : FatigueAnalyzer :=
  set_torque_history
    (Deque.append TORQUE_MAXLEN (torque_history s) (steering_value s)) s.

(** Lines 109-114, the fatigue decision. *)
Definition decide_fatigue (s : FatigueAnalyzer) : FatigueAnalyzer :=
  if YAWN_COUNT_THRESHOLD + 1 <=? yawn_count s
  then set_fatigue_level CRITICAL s
  else if YAWN_COUNT_THRESHOLD <=? yawn_count s
  then set_fatigue_level WARNING s
  else set_fatigue_level NORMAL s.

(** Line 117: the test of the ten-minute reset. *)
Definition reset_due (current_time : float) : bool :=
  (PyFloat.rem current_time (PyFloat.of_int 600) <? PyFloat.of_int 3)%float.

(** Lines 117-118. *)
Definition periodic_reset (current_time : float) (s : FatigueAnalyzer) :=
  if reset_due current_time then set_yawn_count 0 s else s.

(** Line 65: the test that ends [update] at once. *)
Definition rate_limited (current_time : float) (s : FatigueAnalyzer) : bool :=
  (current_time - last_update s <? PyFloat.of_int 3)%float.

(** Lines 68-106: the state on which the fatigue decision is taken. *)
Definition before_decision (env : TickEnv) (s : FatigueAnalyzer)
  : FatigueAnalyzer :=
  let s := set_last_update (clock env) s in
  let s := detect_yawn s in
  let s := simulate_steering env s in
  record_steering s.

(** The body of [update] after the rate limiter, lines 68-118. *)
Definition analyse (env : TickEnv) (s : FatigueAnalyzer) : FatigueAnalyzer :=
  let s := before_decision env s in
  let s := decide_fatigue s in
  periodic_reset (clock env) s.

(** [update] *)
Definition update (env : TickEnv) (s : FatigueAnalyzer) : FatigueAnalyzer :=
  if rate_limited (clock env) s then s else analyse env s.

(** Successive calls of [update], one per entry of [envs]. *)
Definition updates (envs : list TickEnv) (s : FatigueAnalyzer)
  : FatigueAnalyzer :=
  fold_left (fun a env => update env a) envs s.

(** The clock readings at which the reset of line 118 ran during
    successive calls of [update]. *)
Fixpoint reset_times (envs : list TickEnv) (s : FatigueAnalyzer)
  : list float :=
  match envs with
  | [] => []
  | env :: rest =>
      let fired := negb (rate_limited (clock env) s)
                   && reset_due (clock env) in
      (if fired then [clock env] else []) ++ reset_times rest (update env s)
  end.

(** The clock readings at which [update] passed its rate limiter. *)
Fixpoint executed_times (envs : list TickEnv) (s : FatigueAnalyzer)
  : list float :=
  match envs with
  | [] => []
  | env :: rest =>
      (if rate_limited (clock env) s then [] else [clock env])
      ++ executed_times rest (update env s)
  end.

End Analyzer.

(** ** The main loop of [DemoUI.run] *)

Inductive Key : Type :=
  K_ESCAPE | K_SPACE | K_h | K_PLUS | K_EQUALS | K_MINUS | K_other.

Inductive Event : Type :=
| QUIT
| KEYDOWN (key : Key)
| OtherEvent.

(** One pass of the [while] loop: the clock read at its top, the events of
    [pygame.event.get()], and what the call of [update] reads. *)
Record Frame : Type := {
  frame_time : float;
  events : list Event;
  tick : TickEnv
}.

Section DemoUI.

Context {N : Numpy}.

(** The local variables of [run] and the analyzer it drives. *)
Record Loop : Type := {
  running : bool;
  last_yawn_sim_time : float;
  analyzer : FatigueAnalyzer
}.

Definition start (a : FatigueAnalyzer) : Loop :=
  {| running := true; last_yawn_sim_time := PyFloat.of_int 0; analyzer := a |}.

Definition with_analyzer (a : FatigueAnalyzer) (u : Loop) : Loop :=
  {| running := running u;
     last_yawn_sim_time := last_yawn_sim_time u;
     analyzer := a |}.

Definition stop (u : Loop) : Loop :=
  {| running := false;
     last_yawn_sim_time := last_yawn_sim_time u;
     analyzer := analyzer u |}.

(** Lines 375-377, the space key. *)
Definition reset_demo (a : FatigueAnalyzer) : FatigueAnalyzer :=
  let a := set_yawn_count 0 a in
  let a := set_fatigue_level NORMAL a in
  set_steering (steering_value a) Focused a.

(** The debounce test of line 378. *)
Definition yawn_accepted (current_time : float) (u : Loop) : bool :=
  (PyFloat.of_int 2 <? current_time - last_yawn_sim_time u)%float.

(** Lines 380-381, the [h] key once accepted. *)
Definition simulate_yawn (current_time : float) (u : Loop) : Loop :=
  {| running := running u;
     last_yawn_sim_time := current_time;
     analyzer := set_yawn_count (yawn_count (analyzer u) + 1) (analyzer u) |}.

(** Line 384 and line 387. *)
Definition increase_speed (a : FatigueAnalyzer) : FatigueAnalyzer :=
  set_simulation_speed (PyFloat.min 3.0 (simulation_speed a + 0.2)%float) a.

Definition decrease_speed (a : FatigueAnalyzer) : FatigueAnalyzer :=
  set_simulation_speed (PyFloat.max 0.5 (simulation_speed a - 0.2)%float) a.

(** The two speed commands, and a sequence of them. *)
Inductive SpeedCommand : Type := Faster | Slower.

Definition adjust_speed (a : FatigueAnalyzer) (c : SpeedCommand)
  : FatigueAnalyzer :=
  match c with
  | Faster => increase_speed a
  | Slower => decrease_speed a
  end.

(** Lines 368-387, one event. *)
Definition handle_event (current_time : float) (u : Loop) (event : Event)
  : Loop :=
  match event with
  | QUIT => stop u
  | KEYDOWN K_ESCAPE => stop u
  | KEYDOWN K_SPACE => with_analyzer (reset_demo (analyzer u)) u
  | KEYDOWN K_h =>
      if yawn_accepted current_time u then simulate_yawn current_time u
      else u
  | KEYDOWN K_PLUS | KEYDOWN K_EQUALS =>
      with_analyzer (increase_speed (analyzer u)) u
  | KEYDOWN K_MINUS => with_analyzer (decrease_speed (analyzer u)) u
  | KEYDOWN K_other | OtherEvent => u
  end.

(** Lines 364-390: the events of the frame in order, then [update]. *)
Definition run_frame (f : Frame) (u : Loop) : Loop :=
  let u := fold_left (handle_event (frame_time f)) (events f) u in
  with_analyzer (update (tick f) (analyzer u)) u.

(** The [while running] loop over the frames that occur. *)
Fixpoint run (frames : list Frame) (u : Loop) : Loop :=
  match frames with
  | [] => u
  | f :: rest => if running u then run rest (run_frame f u) else u
  end.

End DemoUI.

(** A frame without the reset and forced-yawn keys, whose call of
    [update] comes within 3 seconds of [t]. *)
Definition idle_frame (t : float) (f : Frame) : Prop :=
  (clock (tick f) - t <? 3)%float = true /\
  Forall (fun e => e <> KEYDOWN K_SPACE /\ e <> KEYDOWN K_h) (events f).

(** The binary64 values the simulation speed takes, starting from 1.0, under
    [min(3.0, s + 0.2)] and [max(0.5, s - 0.2)]: the sums and differences
    are rounded, so the steps do not land on multiples of 0.2. *)
Definition reachable_speeds : list float :=
  [ 0.5; 0.59999999999999964; 0.60000000000000009; 0.69999999999999996;
    0.7999999999999996; 0.80000000000000004; 0.89999999999999991;
    0.99999999999999956; 1; 1.0999999999999999; 1.1999999999999995; 1.2;
    1.2999999999999998; 1.3999999999999995; 1.3999999999999999;
    1.4999999999999998; 1.5999999999999994; 1.5999999999999999;
    1.6999999999999997; 1.7999999999999994; 1.7999999999999998;
    1.8999999999999997; 1.9999999999999993; 1.9999999999999998;
    2.0999999999999996; 2.1999999999999993; 2.1999999999999997;
    2.2999999999999998; 2.3999999999999995; 2.3999999999999999; 2.5;
    2.5999999999999996; 2.6000000000000001; 2.7000000000000002;
    2.7999999999999998; 2.8000000000000003; 2.9000000000000004; 3 ]%float.

(** ** Concrete data for closed examples *)

Module Sample.

Definition numpy : Numpy := Binary32.numpy Binary32.sin3.

(** A clock reading on a ten-minute boundary: 2833333 * 600. *)
Definition boundary : float := 1699999800.

(** A tick whose clock reads [t], with middling random draws. *)
Definition env_at (t : float) : TickEnv :=
  {| clock := t; clock_steer := t;
     rand_branch := 0.5; rand_uniform := 0.5; rand_choice := 0.5 |}.

(** An analyzer built at [t] that has since counted [n] yawns. *)
Definition analyzer_with (n : Z) (t : float) : FatigueAnalyzer (N := numpy) :=
  set_yawn_count n (init t t).

(** [n] samples of silence. *)
Definition silence (n : Z) : list spec_float :=
  repeat Binary32.zero (Z.to_nat n).

(** [n] samples of the constant 0.25, whose square is 0.0625. *)
Definition quarter : spec_float := S754_finite false 8388608 (-25).
Definition loud (n : Z) : list spec_float := repeat quarter (Z.to_nat n).

(** The clock readings of [n] successive frames of the main loop, the
    [j]-th of them [period * j] after [t0]. *)
Fixpoint frame_clocks (t0 period : float) (j : Z) (n : nat) : list float :=
  match n with
  | O => []
  | S n' =>
      (t0 + period * PyFloat.of_int j)%float
      :: frame_clocks t0 period (j + 1) n'
  end.

(** A loop running at about 31 frames per second: 33/1024 s per frame.
    94 frames make 3.029296875 s, 93 frames less than 3 s. *)
Definition frame_period : float := 0.0322265625.

(** An analyzer built 3.044921875 s before the boundary, and the calls of
    [update] of the 18706 frames that follow (199 times 94). *)
Definition drifting_start : float := 1699999796.955078125.
Definition drifting_calls : list TickEnv :=
  map env_at (frame_clocks drifting_start frame_period 1 (Z.to_nat 18706)).

(** Analyzers holding 3.5 seconds of audio, loud and silent. *)
Definition noisy : FatigueAnalyzer (N := numpy) :=
  set_audio_buffer (N := numpy) (loud 56000) (analyzer_with 2 boundary).
Definition quiet : FatigueAnalyzer (N := numpy) :=
  set_audio_buffer (N := numpy) (silence 56000) (analyzer_with 2 boundary).

(** The binary32 number 0.0625. *)
Definition sixteenth : spec_float := S754_finite false 8388608 (-27).

(** [t] lies in the 600 seconds that start at [w]. *)
Definition in_window (w t : float) : bool :=
  ((w <=? t) && (t <? w + 600))%float.

End Sample.

(** ** The voice alert, the capture thread and the chart *)

Definition SCREEN_WIDTH : Z := 1000.
Definition SCREEN_HEIGHT : Z := 700.

Section Peripherals.

Context {N : Numpy}.

Definition set_last_alert_time (v : float) (s : FatigueAnalyzer) :=
  {| fatigue_level := fatigue_level s; yawn_count := yawn_count s;
     last_update := last_update s; steering_value := steering_value s;
     driver_state := driver_state s; audio_buffer := audio_buffer s;
     last_alert_time := v;
     torque_history := torque_history s;
     simulation_speed := simulation_speed s |}.

(** [_voice_alert], lines 51-58, called when the clock reads
    [current_time]: the analyzer it leaves and what the voice engine was
    given to say. *)
Definition _voice_alert (current_time : float) (message : String.string)
  (s : FatigueAnalyzer) : FatigueAnalyzer * list String.string :=
  if (PyFloat.of_int 30 <=? current_time - last_alert_time s)%float
  then (set_last_alert_time current_time s, [message])
  else (s, []).

(** One pass of the loop of [_capture_audio], lines 144-152: the stream
    yields a chunk of samples, or raises and the pass only prints. *)
Inductive ReadResult : Type :=
| ReadChunk (audio_data : list float32)
| ReadError.

Definition capture_chunk (s : FatigueAnalyzer) (r : ReadResult)
  : FatigueAnalyzer :=
  match r with
  | ReadChunk audio_data => add_audio_data audio_data s
  | ReadError => s
  end.

(** [_capture_audio] over the reads made while [running] holds. *)
Definition _capture_audio (reads : list ReadResult) (s : FatigueAnalyzer)
  : FatigueAnalyzer :=
  fold_left capture_chunk reads s.

(** The samples the reads delivered, in order. *)
Definition delivered (reads : list ReadResult) : list float32 :=
  flat_map (fun r => match r with
                     | ReadChunk audio_data => audio_data
                     | ReadError => []
                     end) reads.

(** The two writers of the audio buffer, a pass of the capture loop and a
    call of [update], taken one at a time. *)
Inductive Action : Type :=
| Capture (r : ReadResult)
| Tick (env : TickEnv).

Definition perform (s : FatigueAnalyzer) (a : Action) : FatigueAnalyzer :=
  match a with
  | Capture r => capture_chunk s r
  | Tick env => update env s
  end.

(** The samples that line 74 reads when [a] is performed on [s]. *)
Definition scored (s : FatigueAnalyzer) (a : Action) : list float32 :=
  match a with
  | Capture _ => []
  | Tick env =>
      if rate_limited (clock env) s then []
      else match drained_energy (audio_buffer s) with
           | Some _ => audio_buffer s
           | None => []
           end
  end.

Fixpoint scored_samples (actions : list Action) (s : FatigueAnalyzer)
  : list float32 :=
  match actions with
  | [] => []
  | a :: rest => scored s a ++ scored_samples rest (perform s a)
  end.

Definition captured_samples (actions : list Action) : list float32 :=
  flat_map (fun a => match a with
                     | Capture (ReadChunk audio_data) => audio_data
                     | _ => []
                     end) actions.

(** The main loop with the capture thread: between two frames the thread
    may have made some passes. *)
Inductive Step : Type :=
| Heard (r : ReadResult)
| Shown (f : Frame).

Fixpoint run_live (steps : list Step) (u : Loop) : Loop :=
  match steps with
  | [] => u
  | Heard r :: rest =>
      run_live rest (with_analyzer (capture_chunk (analyzer u) r) u)
  | Shown f :: rest =>
      if running u then run_live rest (run_frame f u) else u
  end.

End Peripherals.

(** *** The steering chart of [draw_main_panel], lines 299-314 *)

Module Chart.

(** [max(abs(t) for t in history)]: the first item, then every item
    strictly above the best so far; no value on an empty history, where
    Python raises [ValueError]. *)
Definition max_abs (history : list float) : option float :=
  match history with
  | [] => None
  | t :: rest =>
      Some (fold_left (fun best x => if (best <? abs x)%float
                                     then abs x else best) rest (abs t))
  end.

(** [max(1, m)]: the integer 1 unless [m] is strictly above it. *)
Definition at_least_one (m : float) : float :=
  if (PyFloat.of_int 1 <? m)%float then m else PyFloat.of_int 1.

(** [a / b] on Python numbers: no value when [b] is zero, where Python
    raises [ZeroDivisionError]. *)
Definition truediv (a b : float) : option float :=
  if is_zero b then None else Some (a / b)%float.

(** The abscissa of point [i] among [n], line 309. *)
Definition point_x (n i : Z) : option float :=
  match truediv (PyFloat.of_int (i * (SCREEN_WIDTH - 200))) (PyFloat.of_int n)
  with
  | Some q => Some (PyFloat.of_int 100 + q)%float
  | None => None
  end.

(** The ordinate of the value [t], line 310. *)
Definition point_y (max_torque t : float) : option float :=
  match truediv t max_torque with
  | Some q => Some (PyFloat.of_int 490 - q * PyFloat.of_int 30)%float
  | None => None
  end.

(** The loop of lines 308-311 from index [i] on. *)
Fixpoint points_from (n : Z) (max_torque : float) (i : Z)
  (history : list float) : option (list (float * float)) :=
  match history with
  | [] => Some []
  | t :: rest =>
      match point_x n i, point_y max_torque t,
            points_from n max_torque (i + 1) rest with
      | Some x, Some y, Some pts => Some ((x, y) :: pts)
      | _, _, _ => None
      end
  end.

(** The points of the chart; [None] stands for an exception.  An empty
    history skips the chart (line 299). *)
Definition points (history : list float) : option (list (float * float)) :=
  match history with
  | [] => Some []
  | _ =>
      match max_abs history with
      | Some m =>
          points_from (Z.of_nat (length history)) (at_least_one m) 0 history
      | None => None
      end
  end.

(** Line 313: the polyline is drawn from two points on. *)
Definition draws_lines (pts : list (float * float)) : bool :=
  (1 <? length pts)%nat.

End Chart.

(** ** Notions the further properties are stated with *)

(** Successive clock readings, each at least 3 seconds (as line 65 tests
    it) after the one before, the first after [last]. *)
Fixpoint spaced (last : float) (times : list float) : Prop :=
  match times with
  | [] => True
  | t :: rest => (t - last <? 3)%float = false /\ spaced t rest
  end.

(** The labels [simulate_steering] draws from at each fatigue level. *)
Definition vocabulary (level : FatigueLevel) : list DriverState :=
  match level with
  | NORMAL => [Focused; SlightlyDistracted]
  | WARNING => [Distracted; Microsleep]
  | CRITICAL => [Drowsy; SeverelyDrowsy]
  end.

(** The events that end the main loop, and the forced-yawn key. *)
Definition is_quit (e : Event) : bool :=
  match e with
  | QUIT | KEYDOWN K_ESCAPE => true
  | _ => false
  end.

Definition is_yawn_key (e : Event) : bool :=
  match e with
  | KEYDOWN K_h => true
  | _ => false
  end.

Definition is_reset_key (e : Event) : bool :=
  match e with
  | KEYDOWN K_SPACE => true
  | _ => false
  end.

(** The number of presses of the forced-yawn key in [frames]. *)
Definition yawn_presses (frames : list Frame) : Z :=
  Z.of_nat (length (filter is_yawn_key (flat_map events frames))).

(** What a speed command makes of the speed [v], lines 384 and 387. *)
Definition speed_step (c : SpeedCommand) (v : float) : float :=
  match c with
  | Faster => PyFloat.min 3.0 (v + 0.2)%float
  | Slower => PyFloat.max 0.5 (v - 0.2)%float
  end.

(** The abscissa is defined and lies between the edges of the panel. *)
Definition x_in_panel_of (x : option float) : bool :=
  match x with
  | Some x => ((100 <=? x) && (x <? 900))%float
  | None => false
  end.

(** More concrete data for closed examples. *)
Module Scenario.

(** 47 chunks of silence, as the stream delivers them. *)
Definition chunks47 : list (list (@float32 Sample.numpy)) :=
  repeat (Sample.silence 1024) 47.

(** Three calls of [update], 4, 5 and 8 seconds after 1699999000. *)
Definition three_calls : list TickEnv :=
  map Sample.env_at [1699999004; 1699999005; 1699999008]%float.

(** A frame with three presses of the [h] key, and one that starts with a
    QUIT event. *)
Definition eager_frame : Frame :=
  {| frame_time := 1699999010;
     events := [KEYDOWN K_h; KEYDOWN K_h; KEYDOWN K_h];
     tick := Sample.env_at 1699999010 |}.

Definition closing_frame : Frame :=
  {| frame_time := 1699999020;
     events := [QUIT; KEYDOWN K_h];
     tick := Sample.env_at 1699999020 |}.

End Scenario.

(** * Properties *)

(** ** The Python operations on sample values *)

(** [%] as Python computes it: [1200.5 % 600], [-1.5 % 600], [1800 % 600],
    [float('inf') % 600], and two clock readings around a boundary. *)
Lemma rem_examples :
  PyFloat.rem 1200.5 600 = 0.5%float /\
  PyFloat.rem (-1.5) 600 = 598.5%float /\
  PyFloat.rem 1800 600 = 0%float /\
  PyFloat.rem infinity 600 = nan /\
  PyFloat.rem 1699999799.984375 600 = 599.984375%float /\
  PyFloat.rem 1699999803.013671875 600 = 3.013671875%float.
Proof. repeat split; vm_compute; reflexivity. Qed.

(** [random.choices] with weights 8 and 2 takes the first item for a draw
    below 0.8. *)
Lemma choices2_examples :
  PyRandom.choices2 Focused SlightlyDistracted 8 2 0.79 = Focused /\
  PyRandom.choices2 Focused SlightlyDistracted 8 2 0.8 = SlightlyDistracted /\
  PyRandom.choices2 Drowsy SeverelyDrowsy 6 4 0.59 = Drowsy /\
  PyRandom.choices2 Drowsy SeverelyDrowsy 6 4 0.61 = SeverelyDrowsy.
Proof. repeat split; vm_compute; reflexivity. Qed.

(** [deque(maxlen=3)]: the fourth append drops the oldest item. *)
Lemma deque_examples :
  Deque.append 3 [1; 2] 3 = [1; 2; 3] /\
  Deque.append 3 [1; 2; 3] 4 = [2; 3; 4] /\
  Deque.extend 3 [] [1; 2; 3; 4; 5] = [3; 4; 5].
Proof. repeat split. Qed.

(** ** Field-by-field effect of the steps of a tick *)

Section TickFacts.

Context {N : Numpy}.

Lemma drained_energy_ready (buf : list float32) :
  AUDIO_SAMPLE_RATE * 3 <= Z.of_nat (length buf) ->
  drained_energy buf = Some (np_mean (np_square buf)).
Proof.
  intros H. unfold drained_energy.
  destruct (Z.leb_spec (AUDIO_SAMPLE_RATE * 3) (Z.of_nat (length buf)));
    [reflexivity | lia].
Qed.

Lemma drained_energy_short (buf : list float32) :
  Z.of_nat (length buf) < AUDIO_SAMPLE_RATE * 3 ->
  drained_energy buf = None.
Proof.
  intros H. unfold drained_energy.
  destruct (Z.leb_spec (AUDIO_SAMPLE_RATE * 3) (Z.of_nat (length buf)));
    [lia | reflexivity].
Qed.

(** The yawn count after the audio step, in closed form. *)
Lemma yawn_count_detect_yawn (s : FatigueAnalyzer) :
  yawn_count (detect_yawn s) =
  match drained_energy (audio_buffer s) with
  | Some energy =>
      if f32_gt energy YAWN_ENERGY_THRESHOLD
      then yawn_count s + 1 else yawn_count s
  | None => yawn_count s
  end.
Proof.
  unfold detect_yawn.
  destruct (drained_energy (audio_buffer s)) as [e|]; [|reflexivity].
  destruct (f32_gt e YAWN_ENERGY_THRESHOLD); reflexivity.
Qed.

Lemma audio_buffer_detect_yawn (s : FatigueAnalyzer) :
  audio_buffer (detect_yawn s) =
  match drained_energy (audio_buffer s) with
  | Some _ => []
  | None => audio_buffer s
  end.
Proof.
  unfold detect_yawn.
  destruct (drained_energy (audio_buffer s)) as [e|]; reflexivity.
Qed.

Lemma yawn_count_simulate_steering env (s : FatigueAnalyzer) :
  yawn_count (simulate_steering env s) = yawn_count s.
Proof. unfold simulate_steering. destruct (fatigue_level s); reflexivity. Qed.

Lemma audio_buffer_simulate_steering env (s : FatigueAnalyzer) :
  audio_buffer (simulate_steering env s) = audio_buffer s.
Proof. unfold simulate_steering. destruct (fatigue_level s); reflexivity. Qed.

Lemma last_update_simulate_steering env (s : FatigueAnalyzer) :
  last_update (simulate_steering env s) = last_update s.
Proof. unfold simulate_steering. destruct (fatigue_level s); reflexivity. Qed.

Lemma last_update_detect_yawn (s : FatigueAnalyzer) :
  last_update (detect_yawn s) = last_update s.
Proof.
  unfold detect_yawn.
  destruct (drained_energy (audio_buffer s)) as [e|]; [|reflexivity].
  destruct (f32_gt e YAWN_ENERGY_THRESHOLD); reflexivity.
Qed.

(** The decision step sees the yawn count the audio step left. *)
Lemma yawn_count_before_decision env (s : FatigueAnalyzer) :
  yawn_count (before_decision env s) = yawn_count (detect_yawn s).
Proof.
  unfold before_decision, record_steering. cbn [yawn_count set_torque_history].
  rewrite yawn_count_simulate_steering, !yawn_count_detect_yawn. reflexivity.
Qed.

Lemma audio_buffer_before_decision env (s : FatigueAnalyzer) :
  audio_buffer (before_decision env s) = audio_buffer (detect_yawn s).
Proof.
  unfold before_decision, record_steering.
  cbn [audio_buffer set_torque_history].
  rewrite audio_buffer_simulate_steering, !audio_buffer_detect_yawn.
  reflexivity.
Qed.

Lemma last_update_before_decision env (s : FatigueAnalyzer) :
  last_update (before_decision env s) = clock env.
Proof.
  unfold before_decision, record_steering. cbn [last_update set_torque_history].
  rewrite last_update_simulate_steering, last_update_detect_yawn. reflexivity.
Qed.

Lemma fatigue_level_decide (s : FatigueAnalyzer) :
  fatigue_level (decide_fatigue s) =
  if 4 <=? yawn_count s then CRITICAL
  else if 3 <=? yawn_count s then WARNING else NORMAL.
Proof.
  unfold decide_fatigue, YAWN_COUNT_THRESHOLD. change (3 + 1) with 4.
  destruct (4 <=? yawn_count s); [reflexivity|].
  destruct (3 <=? yawn_count s); reflexivity.
Qed.

Lemma yawn_count_decide (s : FatigueAnalyzer) :
  yawn_count (decide_fatigue s) = yawn_count s.
Proof.
  unfold decide_fatigue.
  destruct (_ <=? _); [reflexivity|]. destruct (_ <=? _); reflexivity.
Qed.

Lemma audio_buffer_decide (s : FatigueAnalyzer) :
  audio_buffer (decide_fatigue s) = audio_buffer s.
Proof.
  unfold decide_fatigue.
  destruct (_ <=? _); [reflexivity|]. destruct (_ <=? _); reflexivity.
Qed.

Lemma last_update_decide (s : FatigueAnalyzer) :
  last_update (decide_fatigue s) = last_update s.
Proof.
  unfold decide_fatigue.
  destruct (_ <=? _); [reflexivity|]. destruct (_ <=? _); reflexivity.
Qed.

Lemma fatigue_level_periodic_reset t (s : FatigueAnalyzer) :
  fatigue_level (periodic_reset t s) = fatigue_level s.
Proof. unfold periodic_reset. destruct (reset_due t); reflexivity. Qed.

Lemma audio_buffer_periodic_reset t (s : FatigueAnalyzer) :
  audio_buffer (periodic_reset t s) = audio_buffer s.
Proof. unfold periodic_reset. destruct (reset_due t); reflexivity. Qed.

Lemma last_update_periodic_reset t (s : FatigueAnalyzer) :
  last_update (periodic_reset t s) = last_update s.
Proof. unfold periodic_reset. destruct (reset_due t); reflexivity. Qed.

Lemma yawn_count_periodic_reset t (s : FatigueAnalyzer) :
  yawn_count (periodic_reset t s) = if reset_due t then 0 else yawn_count s.
Proof. unfold periodic_reset. destruct (reset_due t); reflexivity. Qed.

Lemma update_executed env (s : FatigueAnalyzer) :
  rate_limited (clock env) s = false -> update env s = analyse env s.
Proof. intros H. unfold update. rewrite H. reflexivity. Qed.

Lemma update_rate_limited env (s : FatigueAnalyzer) :
  rate_limited (clock env) s = true -> update env s = s.
Proof. intros H. unfold update. rewrite H. reflexivity. Qed.

(** [last_update] holds the clock reading of the last executed tick. *)
Lemma last_update_executed env (s : FatigueAnalyzer) :
  rate_limited (clock env) s = false -> last_update (update env s) = clock env.
Proof.
  intros H. rewrite update_executed by exact H. unfold analyse.
  rewrite last_update_periodic_reset, last_update_decide.
  apply last_update_before_decision.
Qed.

End TickFacts.

(** ** The analysis tick *)

Section Tick.

Context {N : Numpy}.

(** C1: after a tick that executes, the fatigue level is the one the yawn
    count at the decision step selects: CRITICAL from 4 upwards, WARNING
    at 3, NORMAL below 3 (so for 0, 1 and 2); the test for CRITICAL comes
    first, so a count of 4 or more is never WARNING. *)
Theorem fatigue_level_after_tick (env : TickEnv) (s : FatigueAnalyzer) :
  rate_limited (clock env) s = false ->
  let count := yawn_count (before_decision env s) in
  let level := fatigue_level (update env s) in
  (4 <= count -> level = CRITICAL) /\
  (count = 3 -> level = WARNING) /\
  (count < 3 -> level = NORMAL) /\
  (level = WARNING -> count = 3).
Proof.
  intros Hrun count level.
  assert (Hlevel : level =
            if 4 <=? count then CRITICAL
            else if 3 <=? count then WARNING else NORMAL).
  { subst level count. rewrite update_executed by exact Hrun.
    unfold analyse. rewrite fatigue_level_periodic_reset.
    apply fatigue_level_decide. }
  rewrite Hlevel.
  destruct (Z.leb_spec 4 count); destruct (Z.leb_spec 3 count);
    repeat split; intros; try reflexivity; try lia; try discriminate.
Qed.

(** C2: a buffer of at least 3 * 16000 = 48000 samples yields as energy the
    mean of the squares of every sample in the buffer, whatever its
    length, and the audio step leaves the buffer empty; a shorter buffer
    yields no energy and the audio step changes nothing.  The same holds
    for the buffer after a tick that executes. *)
Theorem energy_drain (env : TickEnv) (s : FatigueAnalyzer) :
  AUDIO_SAMPLE_RATE * 3 = 48000 /\
  (48000 <= Z.of_nat (length (audio_buffer s)) ->
     drained_energy (audio_buffer s)
       = Some (np_mean (map f32_square (audio_buffer s))) /\
     audio_buffer (detect_yawn s) = [] /\
     (rate_limited (clock env) s = false ->
        audio_buffer (update env s) = [])) /\
  (Z.of_nat (length (audio_buffer s)) < 48000 ->
     drained_energy (audio_buffer s) = None /\
     detect_yawn s = s /\
     (rate_limited (clock env) s = false ->
        audio_buffer (update env s) = audio_buffer s)).
Proof.
  split; [reflexivity|].
  assert (Htick : rate_limited (clock env) s = false ->
            audio_buffer (update env s) = audio_buffer (detect_yawn s)).
  { intros Hrun. rewrite update_executed by exact Hrun. unfold analyse.
    rewrite audio_buffer_periodic_reset, audio_buffer_decide.
    apply audio_buffer_before_decision. }
  split; intros Hlen.
  - assert (He := drained_energy_ready (audio_buffer s) Hlen).
    assert (Hbuf : audio_buffer (detect_yawn s) = []).
    { rewrite audio_buffer_detect_yawn, He. reflexivity. }
    repeat split; [exact He | exact Hbuf |].
    intros Hrun. rewrite (Htick Hrun). exact Hbuf.
  - assert (He := drained_energy_short (audio_buffer s) Hlen).
    assert (Hsame : detect_yawn s = s).
    { unfold detect_yawn. rewrite He. reflexivity. }
    repeat split; [exact He | exact Hsame |].
    intros Hrun. rewrite (Htick Hrun), Hsame. reflexivity.
Qed.

(** C4: a call of [update] whose clock reading is less than 3 seconds past
    [last_update] (the test of line 65) returns the analyzer as it was:
    no field changes, [last_update] included. *)
Theorem early_tick_is_noop (env : TickEnv) (s : FatigueAnalyzer) :
  (clock env - last_update s <? 3)%float = true ->
  update env s = s /\
  fatigue_level (update env s) = fatigue_level s /\
  yawn_count (update env s) = yawn_count s /\
  steering_value (update env s) = steering_value s /\
  driver_state (update env s) = driver_state s /\
  audio_buffer (update env s) = audio_buffer s /\
  torque_history (update env s) = torque_history s /\
  last_update (update env s) = last_update s.
Proof.
  intros Hearly.
  assert (H : update env s = s) by (apply update_rate_limited; exact Hearly).
  rewrite H. repeat split.
Qed.

End Tick.

(** ** Yawn counting *)

Section YawnCount.

Context {N : Numpy}.

(** What the audio step of an executed tick does to the yawn count. *)
Lemma yawn_count_audio_step (env : TickEnv) (s : FatigueAnalyzer) :
  let before := yawn_count s in
  let after := yawn_count (before_decision env s) in
  (forall e, drained_energy (audio_buffer s) = Some e ->
             f32_gt e YAWN_ENERGY_THRESHOLD = true -> after = before + 1) /\
  (forall e, drained_energy (audio_buffer s) = Some e ->
             f32_gt e YAWN_ENERGY_THRESHOLD = false -> after = before) /\
  (drained_energy (audio_buffer s) = None -> after = before) /\
  before <= after <= before + 1 /\
  (rate_limited (clock env) s = false ->
     yawn_count (update env s) = if reset_due (clock env) then 0 else after).
Proof.
  intros before after.
  assert (Hafter : after =
            match drained_energy (audio_buffer s) with
            | Some energy =>
                if f32_gt energy YAWN_ENERGY_THRESHOLD
                then before + 1 else before
            | None => before
            end).
  { subst after before. rewrite yawn_count_before_decision.
    apply yawn_count_detect_yawn. }
  repeat split.
  - intros e He Hgt. rewrite Hafter, He, Hgt. reflexivity.
  - intros e He Hgt. rewrite Hafter, He, Hgt. reflexivity.
  - intros He. rewrite Hafter, He. reflexivity.
  - rewrite Hafter. destruct (drained_energy _) as [e|]; [|lia].
    destruct (f32_gt e _); lia.
  - rewrite Hafter. destruct (drained_energy _) as [e|]; [|lia].
    destruct (f32_gt e _); lia.
  - intros Hrun. rewrite update_executed by exact Hrun. unfold analyse.
    rewrite yawn_count_periodic_reset, yawn_count_decide. reflexivity.
Qed.

End YawnCount.

(** Three and a half seconds of silence at 16 kHz, on binary32 samples:
    56000 samples, whose energy is [+0.0]. *)
Lemma silence_energy :
  48000 <= Z.of_nat (length (Sample.silence 56000)) /\
  Z.of_nat (length (Sample.silence 56000)) = AUDIO_SAMPLE_RATE * 7 / 2 /\
  Binary32.mean (map (fun x => Binary32.mul x x) (Sample.silence 56000))
    = Binary32.zero.
Proof.
  split; [|split].
  - vm_compute. discriminate.
  - vm_compute. reflexivity.
  - vm_compute. reflexivity.
Qed.

(** A buffer that is long enough and whose energy is [+0.0] counts no yawn:
    [+0.0] does not exceed 0.02. *)
Lemma quiet_buffer (sin : float -> float)
  (s : FatigueAnalyzer (N := Binary32.numpy sin)) (buf : list spec_float) :
  audio_buffer s = buf ->
  48000 <= Z.of_nat (length buf) ->
  Binary32.mean (map (fun x => Binary32.mul x x) buf) = Binary32.zero ->
  drained_energy (audio_buffer s) = Some Binary32.zero /\
  yawn_count (detect_yawn s) = yawn_count s /\
  audio_buffer (detect_yawn s) = [].
Proof.
  intros Hbuf Hlen Hmean.
  assert (Hgt : Binary32.gt Binary32.zero YAWN_ENERGY_THRESHOLD = false)
    by (vm_compute; reflexivity).
  assert (He : drained_energy (audio_buffer s) = Some Binary32.zero).
  { rewrite drained_energy_ready by (rewrite Hbuf; exact Hlen).
    rewrite Hbuf. f_equal. exact Hmean. }
  split; [exact He|].
  rewrite yawn_count_detect_yawn, audio_buffer_detect_yawn, He.
  change (@f32_gt (Binary32.numpy sin) Binary32.zero YAWN_ENERGY_THRESHOLD)
    with (Binary32.gt Binary32.zero YAWN_ENERGY_THRESHOLD).
  rewrite Hgt. split; reflexivity.
Qed.

Lemma silence_leaves_yawn_count (sin : float -> float)
  (s : FatigueAnalyzer (N := Binary32.numpy sin)) :
  audio_buffer s = Sample.silence 56000 ->
  drained_energy (audio_buffer s) = Some Binary32.zero /\
  yawn_count (detect_yawn s) = yawn_count s /\
  audio_buffer (detect_yawn s) = [].
Proof.
  intros Hbuf. destruct silence_energy as (Hlen & _ & Hmean).
  exact (quiet_buffer sin s _ Hbuf Hlen Hmean).
Qed.

(** C3: on a tick that executes, the audio step adds exactly 1 to the yawn
    count when an energy was drained and exceeds 0.02, and leaves the count
    as it was otherwise, so it never adds more than 1 however long the
    buffer is; what the tick leaves is that count, or 0 when the periodic
    reset runs.  With binary32 samples, 3.5 seconds (56000 samples) of
    zeros give the energy [+0.0], the count is unchanged and the buffer is
    emptied. *)
Theorem yawn_count_step :
  (forall (N : Numpy) (env : TickEnv) (s : FatigueAnalyzer),
     let before := yawn_count s in
     let after := yawn_count (before_decision env s) in
     (forall e, drained_energy (audio_buffer s) = Some e ->
                f32_gt e 0.02 = true -> after = before + 1) /\
     (forall e, drained_energy (audio_buffer s) = Some e ->
                f32_gt e 0.02 = false -> after = before) /\
     (drained_energy (audio_buffer s) = None -> after = before) /\
     before <= after <= before + 1 /\
     (rate_limited (clock env) s = false ->
        yawn_count (update env s)
          = if reset_due (clock env) then 0 else after)) /\
  (forall (sin : float -> float)
          (s : FatigueAnalyzer (N := Binary32.numpy sin)),
     audio_buffer s = Sample.silence 56000 ->
     Z.of_nat (length (audio_buffer s)) = AUDIO_SAMPLE_RATE * 7 / 2 /\
     drained_energy (audio_buffer s) = Some Binary32.zero /\
     f32_gt (Numpy := Binary32.numpy sin) Binary32.zero 0.02 = false /\
     yawn_count (detect_yawn s) = yawn_count s /\
     audio_buffer (detect_yawn s) = []).
Proof.
  split.
  - intros N env s. exact (yawn_count_audio_step env s).
  - intros sin s Hbuf.
    destruct (silence_leaves_yawn_count sin s Hbuf) as (He & Hy & Hb).
    split; [|split; [exact He | split; [|split; [exact Hy | exact Hb]]]].
    + rewrite Hbuf. exact (proj1 (proj2 silence_energy)).
    + vm_compute. reflexivity.
Qed.

(** ** The decision precedes the periodic reset *)

Section DecisionBeforeReset.

Context {N : Numpy}.

(** Calls of [update] within 3 seconds of the last executed tick leave
    the analyzer as it is, however many there are. *)
Lemma updates_rate_limited (envs : list TickEnv) (s : FatigueAnalyzer) :
  Forall (fun env => rate_limited (clock env) s = true) envs ->
  updates envs s = s.
Proof.
  unfold updates. induction 1 as [|env envs Henv _ IH]; [reflexivity|].
  cbn [fold_left]. rewrite update_rate_limited by exact Henv. exact IH.
Qed.

Lemma idle_event_keeps (ct : float) (u : Loop) (e : Event) :
  e <> KEYDOWN K_SPACE -> e <> KEYDOWN K_h ->
  let u' := handle_event ct u e in
  yawn_count (analyzer u') = yawn_count (analyzer u) /\
  fatigue_level (analyzer u') = fatigue_level (analyzer u) /\
  last_update (analyzer u') = last_update (analyzer u).
Proof.
  intros Hspace Hh. destruct e as [|[]|]; try congruence; repeat split.
Qed.

Lemma idle_events_keep (ct : float) (evs : list Event) (u : Loop) :
  Forall (fun e => e <> KEYDOWN K_SPACE /\ e <> KEYDOWN K_h) evs ->
  let u' := fold_left (handle_event ct) evs u in
  yawn_count (analyzer u') = yawn_count (analyzer u) /\
  fatigue_level (analyzer u') = fatigue_level (analyzer u) /\
  last_update (analyzer u') = last_update (analyzer u).
Proof.
  intros H. revert u.
  induction H as [|e evs [Hspace Hh] _ IH]; intros u; cbn [fold_left].
  - repeat split.
  - destruct (IH (handle_event ct u e)) as (-> & -> & ->).
    apply idle_event_keeps; assumption.
Qed.

Lemma idle_frames_keep (frames : list Frame) (u : Loop) :
  Forall (idle_frame (last_update (analyzer u))) frames ->
  yawn_count (analyzer (run frames u)) = yawn_count (analyzer u) /\
  fatigue_level (analyzer (run frames u)) = fatigue_level (analyzer u).
Proof.
  revert u. induction frames as [|f frames IH]; intros u H; cbn [run].
  - split; reflexivity.
  - destruct (running u); [|split; reflexivity].
    inversion H as [|f' frames' [Hearly Hevs] Hrest]; subst.
    destruct (idle_events_keep (frame_time f) (events f) u Hevs)
      as (Hy & Hl & Ht).
    assert (Hframe : analyzer (run_frame f u)
              = analyzer (fold_left (handle_event (frame_time f))
                                    (events f) u)).
    { unfold run_frame. cbn [analyzer with_analyzer].
      apply update_rate_limited. unfold rate_limited.
      rewrite Ht. exact Hearly. }
    destruct (IH (run_frame f u)) as [Hy' Hl'].
    { rewrite Hframe, Ht. exact Hrest. }
    rewrite Hy', Hl', Hframe. split; assumption.
Qed.

(** C10: in a tick that executes, the fatigue level is set from the yawn
    count before line 117 tests the reset.  So when the reset runs with a
    count of 3 or more at the decision, the tick ends with a yawn count of
    0 and a level of WARNING (count 3) or CRITICAL (count 4 or more).
    Every later call that the rate limiter turns away keeps that state,
    and so does the main loop over frames that bring such calls and
    neither the reset nor the forced-yawn key. *)
Theorem reset_after_decision (env : TickEnv) (s : FatigueAnalyzer) :
  rate_limited (clock env) s = false ->
  reset_due (clock env) = true ->
  3 <= yawn_count (before_decision env s) ->
  let s' := update env s in
  s' = periodic_reset (clock env) (decide_fatigue (before_decision env s)) /\
  yawn_count s' = 0 /\
  (fatigue_level s' = WARNING \/ fatigue_level s' = CRITICAL) /\
  (fatigue_level s' = CRITICAL <-> 4 <= yawn_count (before_decision env s)) /\
  (forall later : list TickEnv,
     Forall (fun e => rate_limited (clock e) s' = true) later ->
     updates later s' = s') /\
  (forall (frames : list Frame) (u : Loop),
     analyzer u = s' ->
     Forall (idle_frame (clock env)) frames ->
     yawn_count (analyzer (run frames u)) = 0 /\
     fatigue_level (analyzer (run frames u)) = fatigue_level s').
Proof.
  intros Hrun Hreset Hcount s'.
  assert (Hs' : s' = periodic_reset (clock env)
                       (decide_fatigue (before_decision env s))).
  { subst s'. rewrite update_executed by exact Hrun. reflexivity. }
  assert (Hlevel : fatigue_level s' =
            if 4 <=? yawn_count (before_decision env s)
            then CRITICAL else WARNING).
  { rewrite Hs', fatigue_level_periodic_reset, fatigue_level_decide.
    destruct (4 <=? _); [reflexivity|].
    destruct (Z.leb_spec 3 (yawn_count (before_decision env s)));
      [reflexivity | lia]. }
  assert (Hzero : yawn_count s' = 0).
  { rewrite Hs', yawn_count_periodic_reset, Hreset. reflexivity. }
  split; [exact Hs'|]. split; [|split; [|split; [|split]]].
  - exact Hzero.
  - rewrite Hlevel. destruct (4 <=? _); [right | left]; reflexivity.
  - rewrite Hlevel.
    destruct (Z.leb_spec 4 (yawn_count (before_decision env s)));
      split; intros; try reflexivity; try lia; try discriminate.
  - intros later Hlater. apply updates_rate_limited. exact Hlater.
  - intros frames u Hu Hidle.
    assert (Hlast : last_update (analyzer u) = clock env).
    { rewrite Hu. subst s'. apply last_update_executed. exact Hrun. }
    rewrite <- Hlast in Hidle.
    destruct (idle_frames_keep frames u Hidle) as [Hy Hl].
    rewrite Hy, Hl, Hu. split; [exact Hzero | reflexivity].
Qed.

End DecisionBeforeReset.

(** ** The steering history *)

Section History.

Context {A : Type}.

Import Deque.

Lemma length_lastn (n : nat) (l : list A) :
  length (lastn n l) = Nat.min n (length l).
Proof. unfold lastn. rewrite length_skipn. lia. Qed.

Lemma lastn_short (n : nat) (l : list A) :
  (length l <= n)%nat -> lastn n l = l.
Proof.
  intros H. unfold lastn.
  replace (length l - n)%nat with 0%nat by lia. reflexivity.
Qed.

(** Items pushed out of the last [n] stay out when more are added. *)
Lemma lastn_app_lastn (n : nat) (l xs : list A) :
  lastn n (lastn n l ++ xs) = lastn n (l ++ xs).
Proof.
  destruct (Nat.le_gt_cases (length l) n) as [Hle | Hgt].
  - rewrite (lastn_short n l) by exact Hle. reflexivity.
  - unfold lastn at 1 3. rewrite !length_app, length_lastn.
    replace (Nat.min n (length l)) with n by lia.
    replace (length l + length xs - n)%nat
      with ((n + length xs - n) + (length l - n))%nat by lia.
    rewrite <- skipn_skipn. f_equal.
    rewrite skipn_app.
    replace (length l - n - length l)%nat with 0%nat by lia.
    reflexivity.
Qed.

Lemma append_lastn (n : nat) (d : list A) (x : A) :
  (length d <= n)%nat -> Deque.append n d x = lastn n (d ++ [x]).
Proof.
  intros Hd. unfold Deque.append, lastn.
  rewrite length_app. cbn [length].
  destruct (Nat.ltb_spec n (length d + 1)) as [Hfull | Hroom].
  - replace (length d + 1 - n)%nat with 1%nat by lia. reflexivity.
  - replace (length d + 1 - n)%nat with 0%nat by lia. reflexivity.
Qed.

Lemma length_append (n : nat) (d : list A) (x : A) :
  (length d <= n)%nat -> (length (Deque.append n d x) <= n)%nat.
Proof.
  intros Hd. rewrite append_lastn by exact Hd. rewrite length_lastn. lia.
Qed.

(** After any appends the deque holds the last [n] items of all it was
    given, in the order they came. *)
Lemma extend_lastn (n : nat) (xs d : list A) :
  (length d <= n)%nat -> Deque.extend n d xs = lastn n (d ++ xs).
Proof.
  unfold Deque.extend. revert d.
  induction xs as [|x xs IH]; intros d Hd; cbn [fold_left].
  - rewrite app_nil_r. symmetry. apply lastn_short. exact Hd.
  - rewrite IH by (apply length_append; exact Hd).
    rewrite append_lastn by exact Hd.
    rewrite lastn_app_lastn, <- app_assoc. reflexivity.
Qed.

Lemma lastn_app_long (n : nat) (d xs : list A) :
  (n <= length xs)%nat -> lastn n (d ++ xs) = lastn n xs.
Proof.
  intros H. unfold lastn. rewrite length_app, skipn_app.
  replace (length d + length xs - n)%nat
    with (length d + (length xs - n))%nat by lia.
  rewrite skipn_all2 by lia. cbn [app]. f_equal. lia.
Qed.

End History.

Section HistoryOfTheAnalyzer.

Context {N : Numpy}.

Lemma torque_history_detect_yawn (s : FatigueAnalyzer) :
  torque_history (detect_yawn s) = torque_history s.
Proof.
  unfold detect_yawn.
  destruct (drained_energy (audio_buffer s)) as [e|]; [|reflexivity].
  destruct (f32_gt e YAWN_ENERGY_THRESHOLD); reflexivity.
Qed.

Lemma torque_history_simulate_steering env (s : FatigueAnalyzer) :
  torque_history (simulate_steering env s) = torque_history s.
Proof. unfold simulate_steering. destruct (fatigue_level s); reflexivity. Qed.

(** The decision and the reset touch neither the steering value nor the
    history. *)
Lemma steering_after_decision t (s : FatigueAnalyzer) :
  steering_value (periodic_reset t (decide_fatigue s)) = steering_value s /\
  torque_history (periodic_reset t (decide_fatigue s)) = torque_history s.
Proof.
  unfold periodic_reset, decide_fatigue.
  destruct (reset_due t), (YAWN_COUNT_THRESHOLD + 1 <=? yawn_count s),
    (YAWN_COUNT_THRESHOLD <=? yawn_count s); split; reflexivity.
Qed.

Lemma torque_history_update (env : TickEnv) (s : FatigueAnalyzer) :
  torque_history (update env s) =
  if rate_limited (clock env) s then torque_history s
  else Deque.append TORQUE_MAXLEN (torque_history s)
         (steering_value (update env s)).
Proof.
  unfold update. destruct (rate_limited (clock env) s); [reflexivity|].
  unfold analyse.
  destruct (steering_after_decision (clock env) (before_decision env s))
    as [-> ->].
  unfold before_decision, record_steering.
  cbn [torque_history steering_value set_torque_history].
  rewrite torque_history_simulate_steering, torque_history_detect_yawn.
  reflexivity.
Qed.

Lemma length_torque_history_update (env : TickEnv) (s : FatigueAnalyzer) :
  (length (torque_history s) <= 100)%nat ->
  (length (torque_history (update env s)) <= 100)%nat.
Proof.
  intros H. rewrite torque_history_update.
  destruct (rate_limited _ _); [exact H|].
  apply length_append. exact H.
Qed.

Lemma torque_history_handle_event (ct : float) (u : Loop) (event : Event) :
  torque_history (analyzer (handle_event ct u event))
  = torque_history (analyzer u).
Proof.
  destruct event as [|[]|]; try reflexivity.
  unfold handle_event. destruct (yawn_accepted ct u); reflexivity.
Qed.

Lemma torque_history_events (ct : float) (evs : list Event) (u : Loop) :
  torque_history (analyzer (fold_left (handle_event ct) evs u))
  = torque_history (analyzer u).
Proof.
  revert u. induction evs as [|e evs IH]; intros u; cbn [fold_left].
  - reflexivity.
  - rewrite IH. apply torque_history_handle_event.
Qed.

Lemma length_torque_history_run (frames : list Frame) (u : Loop) :
  (length (torque_history (analyzer u)) <= 100)%nat ->
  (length (torque_history (analyzer (run frames u))) <= 100)%nat.
Proof.
  revert u. induction frames as [|f frames IH]; intros u Hu; cbn [run].
  - exact Hu.
  - destruct (running u); [|exact Hu].
    apply IH. unfold run_frame. cbn [analyzer with_analyzer].
    apply length_torque_history_update.
    rewrite torque_history_events. exact Hu.
Qed.

End HistoryOfTheAnalyzer.

(** C6: [torque_history] is a [deque(maxlen=100)].  Whatever values are
    appended, to a history of at most 100 entries, it holds at most 100
    entries; once at least 100 values were appended (150, say) it holds
    exactly the last 100 of them in the order they were appended, the older
    ones being dropped.  Each executed tick appends its steering value to
    the history in this way, so the history of the analyzer never exceeds
    100 entries in any run of the main loop. *)
Theorem steering_history_bounded :
  (forall (A : Type) (d xs : list A),
     (length d <= 100)%nat ->
     (length (Deque.extend 100 d xs) <= 100)%nat /\
     Deque.extend 100 d xs = skipn (length (d ++ xs) - 100) (d ++ xs) /\
     ((100 <= length xs)%nat ->
        Deque.extend 100 d xs = skipn (length xs - 100) xs /\
        length (Deque.extend 100 d xs) = 100%nat)) /\
  Deque.extend 100 [] (seq 0 150) = seq 50 100 /\
  (forall (N : Numpy) (env : TickEnv) (s : FatigueAnalyzer),
     rate_limited (clock env) s = false ->
     torque_history (update env s)
       = Deque.append 100 (torque_history s) (steering_value (update env s))) /\
  (forall (N : Numpy) (t t' : float) (frames : list Frame),
     (length (torque_history (analyzer (run frames (start (init t t')))))
      <= 100)%nat).
Proof.
  split; [|split; [|split]].
  - intros A d xs Hd.
    assert (H := extend_lastn 100 xs d Hd).
    split; [|split].
    + rewrite H, length_lastn. lia.
    + exact H.
    + intros Hxs. rewrite H, lastn_app_long by exact Hxs.
      split; [reflexivity|]. rewrite length_lastn. lia.
  - vm_compute. reflexivity.
  - intros N env s Hrun. rewrite torque_history_update, Hrun. reflexivity.
  - intros N t t' frames. apply length_torque_history_run. cbn. lia.
Qed.

(** ** The simulation speed *)

Ltac in_list := repeat (first [left; reflexivity | right]).

Lemma reachable_faster (s : float) :
  In s reachable_speeds ->
  In (PyFloat.min 3.0 (s + 0.2)%float) reachable_speeds.
Proof.
  unfold reachable_speeds. cbn [In]. intros H.
  repeat (destruct H as [<- | H]; [vm_compute; in_list|]).
  destruct H.
Qed.

Lemma reachable_slower (s : float) :
  In s reachable_speeds ->
  In (PyFloat.max 0.5 (s - 0.2)%float) reachable_speeds.
Proof.
  unfold reachable_speeds. cbn [In]. intros H.
  repeat (destruct H as [<- | H]; [vm_compute; in_list|]).
  destruct H.
Qed.

Lemma reachable_in_range (s : float) :
  In s reachable_speeds ->
  (0.5 <=? s)%float = true /\ (s <=? 3.0)%float = true.
Proof.
  unfold reachable_speeds. cbn [In]. intros H.
  repeat (destruct H as [<- | H]; [split; reflexivity|]).
  destruct H.
Qed.

(** On binary64 numbers, NaN included, [<] entails [<=]. *)
Lemma ltb_leb (x y : float) :
  (x <? y)%float = true -> (x <=? y)%float = true.
Proof.
  rewrite ltb_spec, leb_spec. unfold SFltb, SFleb.
  destruct (SFcompare _ _) as [[]|]; congruence.
Qed.

Lemma min_3_le (x : float) : (PyFloat.min 3.0 x <=? 3.0)%float = true.
Proof.
  unfold PyFloat.min. destruct (x <? 3.0)%float eqn:E.
  - apply ltb_leb. exact E.
  - reflexivity.
Qed.

Lemma max_half_ge (x : float) : (0.5 <=? PyFloat.max 0.5 x)%float = true.
Proof.
  unfold PyFloat.max. destruct (0.5 <? x)%float eqn:E.
  - apply ltb_leb. exact E.
  - reflexivity.
Qed.

Section Speed.

Context {N : Numpy}.

Lemma simulation_speed_update (env : TickEnv) (s : FatigueAnalyzer) :
  simulation_speed (update env s) = simulation_speed s.
Proof.
  unfold update. destruct (rate_limited (clock env) s); [reflexivity|].
  unfold analyse, periodic_reset, decide_fatigue.
  set (b := before_decision env s).
  assert (Hb : simulation_speed b = simulation_speed s).
  { subst b. unfold before_decision, record_steering, simulate_steering.
    cbn [simulation_speed set_torque_history].
    destruct (fatigue_level _); cbn [simulation_speed set_steering];
      unfold detect_yawn; cbn [audio_buffer set_last_update];
      destruct (drained_energy (audio_buffer s)) as [e|]; try reflexivity;
      destruct (f32_gt e YAWN_ENERGY_THRESHOLD); reflexivity. }
  rewrite <- Hb.
  destruct (reset_due (clock env)), (YAWN_COUNT_THRESHOLD + 1 <=? yawn_count b),
    (YAWN_COUNT_THRESHOLD <=? yawn_count b); reflexivity.
Qed.

Lemma reachable_adjust (a : FatigueAnalyzer) (c : SpeedCommand) :
  In (simulation_speed a) reachable_speeds ->
  In (simulation_speed (adjust_speed a c)) reachable_speeds.
Proof.
  intros H. destruct c; cbn.
  - apply reachable_faster. exact H.
  - apply reachable_slower. exact H.
Qed.

Lemma reachable_commands (cmds : list SpeedCommand) (a : FatigueAnalyzer) :
  In (simulation_speed a) reachable_speeds ->
  In (simulation_speed (fold_left adjust_speed cmds a)) reachable_speeds.
Proof.
  revert a. induction cmds as [|c cmds IH]; intros a H; cbn [fold_left].
  - exact H.
  - apply IH, reachable_adjust, H.
Qed.

Lemma reachable_handle_event (ct : float) (u : Loop) (event : Event) :
  In (simulation_speed (analyzer u)) reachable_speeds ->
  In (simulation_speed (analyzer (handle_event ct u event))) reachable_speeds.
Proof.
  intros H. destruct event as [|[]|]; try exact H.
  - unfold handle_event. destruct (yawn_accepted ct u); exact H.
  - apply reachable_faster. exact H.
  - apply reachable_faster. exact H.
  - apply reachable_slower. exact H.
Qed.

Lemma reachable_events (ct : float) (evs : list Event) (u : Loop) :
  In (simulation_speed (analyzer u)) reachable_speeds ->
  In (simulation_speed (analyzer (fold_left (handle_event ct) evs u)))
     reachable_speeds.
Proof.
  revert u. induction evs as [|e evs IH]; intros u H; cbn [fold_left].
  - exact H.
  - apply IH, reachable_handle_event, H.
Qed.

Lemma reachable_run (frames : list Frame) (u : Loop) :
  In (simulation_speed (analyzer u)) reachable_speeds ->
  In (simulation_speed (analyzer (run frames u))) reachable_speeds.
Proof.
  revert u. induction frames as [|f frames IH]; intros u H; cbn [run].
  - exact H.
  - destruct (running u); [|exact H].
    apply IH. unfold run_frame. cbn [analyzer with_analyzer].
    rewrite simulation_speed_update. apply reachable_events. exact H.
Qed.

Lemma reachable_init (t t' : float) :
  In (simulation_speed (init t t')) reachable_speeds.
Proof. cbn [simulation_speed init]. unfold reachable_speeds. in_list. Qed.

End Speed.

(** C7: the simulation speed starts at 1.0; an increase sets it to
    [min(3.0, speed + 0.2)] and a decrease to [max(0.5, speed - 0.2)].
    After any sequence of the two commands, and after any run of the main
    loop (whatever the keys and the ticks), the speed [s] satisfies
    [0.5 <= s <= 3.0] as binary64 numbers.  For every binary64 speed
    whatever, an increase gives at most 3.0 and a decrease at least 0.5. *)
Theorem simulation_speed_clamped :
  (forall (N : Numpy) (t t' : float),
     simulation_speed (init t t') = 1.0%float) /\
  (forall (N : Numpy) (t t' : float) (cmds : list SpeedCommand),
     let speed :=
       simulation_speed (fold_left adjust_speed cmds (init t t')) in
     (0.5 <=? speed)%float = true /\ (speed <=? 3.0)%float = true) /\
  (forall (N : Numpy) (t t' : float) (frames : list Frame),
     let speed :=
       simulation_speed (analyzer (run frames (start (init t t')))) in
     (0.5 <=? speed)%float = true /\ (speed <=? 3.0)%float = true) /\
  (forall (N : Numpy) (a : FatigueAnalyzer),
     simulation_speed (increase_speed a)
       = PyFloat.min 3.0 (simulation_speed a + 0.2)%float /\
     simulation_speed (decrease_speed a)
       = PyFloat.max 0.5 (simulation_speed a - 0.2)%float /\
     (simulation_speed (increase_speed a) <=? 3.0)%float = true /\
     (0.5 <=? simulation_speed (decrease_speed a))%float = true).
Proof.
  split; [|split; [|split]].
  - reflexivity.
  - intros N t t' cmds speed. apply reachable_in_range.
    apply reachable_commands, reachable_init.
  - intros N t t' frames speed. apply reachable_in_range.
    apply reachable_run. apply reachable_init.
  - intros N a. split; [reflexivity|]. split; [reflexivity|]. split.
    + apply min_3_le.
    + apply max_half_ge.
Qed.

(** ** The reset and forced-yawn keys *)

Section Keys.

Context {N : Numpy}.

(** C8: whatever the analyzer holds, the reset command (the space key)
    leaves a yawn count of 0 and the fatigue level NORMAL (and the driver
    state "focused"); the other fields keep their values. *)
Theorem reset_command (ct : float) (u : Loop) :
  let a := analyzer u in
  let a' := analyzer (handle_event ct u (KEYDOWN K_SPACE)) in
  a' = reset_demo a /\
  yawn_count a' = 0 /\
  fatigue_level a' = NORMAL /\
  driver_state a' = Focused /\
  last_update a' = last_update a /\
  audio_buffer a' = audio_buffer a /\
  torque_history a' = torque_history a /\
  simulation_speed a' = simulation_speed a.
Proof. repeat split. Qed.

(** C9: the forced-yawn command (the [h] key) at frame time [ct] is
    accepted when [ct - last_yawn_sim_time > 2]; it then adds exactly 1 to
    the yawn count and records [ct].  Otherwise it changes nothing; in
    particular a second command at [ct2], with [ct2 - ct] not above 2
    where [ct] is the time of the last accepted one, is a no-op.  The test
    reads neither the analyzer nor its [last_update], and the command
    does not write [last_update]. *)
Theorem forced_yawn (ct : float) (u : Loop) :
  let u' := handle_event ct u (KEYDOWN K_h) in
  ((2 <? ct - last_yawn_sim_time u)%float = true ->
     yawn_count (analyzer u') = yawn_count (analyzer u) + 1 /\
     last_yawn_sim_time u' = ct /\
     (forall (ct2 : float) (u2 : Loop),
        last_yawn_sim_time u2 = ct ->
        (2 <? ct2 - ct)%float = false ->
        handle_event ct2 u2 (KEYDOWN K_h) = u2)) /\
  ((2 <? ct - last_yawn_sim_time u)%float = false -> u' = u) /\
  (forall a : FatigueAnalyzer,
     yawn_accepted ct (with_analyzer a u) = yawn_accepted ct u) /\
  last_update (analyzer u') = last_update (analyzer u).
Proof.
  intros u'. subst u'. unfold handle_event.
  change (yawn_accepted ct u) with (2 <? ct - last_yawn_sim_time u)%float.
  repeat split.
  - rewrite H. reflexivity.
  - rewrite H. reflexivity.
  - intros ct2 u2 Hlast Hnear. unfold yawn_accepted.
    rewrite Hlast.
    change (PyFloat.of_int 2 <? ct2 - ct)%float with (2 <? ct2 - ct)%float.
    rewrite Hnear. reflexivity.
  - intros Hno. rewrite Hno. reflexivity.
  - destruct (2 <? ct - last_yawn_sim_time u)%float; reflexivity.
Qed.

End Keys.

(** ** The ten-minute reset *)

(** C5 (the code departs from it): the reset runs on a tick whose clock
    reading, modulo 600, is below 3.  With frames of 33/1024 s the ticks are
    3.029296875 s apart; one falls 0.015625 s before the boundary
    [Sample.boundary] and the next 3.013671875 s after it.  All 198 ticks
    inside the 600 seconds that start at the boundary execute, none of them
    runs the reset, and the yawn count of 4 is still there at the end.  Two
    ticks 597.125 s apart, at 2.875 s and at 600 s after the boundary, both
    run it. *)
Theorem reset_skips_window :
  let s0 := Sample.analyzer_with 4 Sample.drifting_start in
  let ticks := executed_times Sample.drifting_calls s0 in
  length Sample.drifting_calls = Z.to_nat 18706 /\
  length ticks = 199%nat /\
  firstn 2 ticks = [1699999799.984375; 1699999803.013671875]%float /\
  map (fun t => PyFloat.rem t 600) (firstn 2 ticks)
    = [599.984375; 3.013671875]%float /\
  length (filter (Sample.in_window Sample.boundary) ticks) = 198%nat /\
  reset_times Sample.drifting_calls s0 = [] /\
  yawn_count (updates Sample.drifting_calls s0) = 4 /\
  fatigue_level (updates Sample.drifting_calls s0) = CRITICAL /\
  reset_times
    [Sample.env_at 1699999802.875; Sample.env_at 1700000400]
    (Sample.analyzer_with 4 1699999799)
  = [1699999802.875; 1700000400]%float.
Proof.
  cbv zeta.
  split; [vm_compute; reflexivity|].
  split; [vm_compute; reflexivity|].
  split; [vm_compute; reflexivity|].
  split; [vm_compute; reflexivity|].
  split; [vm_compute; reflexivity|].
  split; [vm_compute; reflexivity|].
  split; [vm_compute; reflexivity|].
  split; [vm_compute; reflexivity|].
  vm_compute; reflexivity.
Qed.

(** ** The statements above on concrete data *)

(** A tick 4 seconds after the last one, on a count of 3: WARNING. *)
Lemma fatigue_level_after_tick_witness :
  rate_limited (clock (Sample.env_at 1699999004))
               (Sample.analyzer_with 3 1699999000) = false /\
  yawn_count (before_decision (Sample.env_at 1699999004)
                              (Sample.analyzer_with 3 1699999000)) = 3 /\
  fatigue_level (update (Sample.env_at 1699999004)
                        (Sample.analyzer_with 3 1699999000)) = WARNING.
Proof.
  assert (Hrun : rate_limited (clock (Sample.env_at 1699999004))
                   (Sample.analyzer_with 3 1699999000) = false)
    by (vm_compute; reflexivity).
  assert (Hcount : yawn_count (before_decision (Sample.env_at 1699999004)
                     (Sample.analyzer_with 3 1699999000)) = 3)
    by (vm_compute; reflexivity).
  split; [exact Hrun|]. split; [exact Hcount|].
  exact (proj1 (proj2 (fatigue_level_after_tick _ _ Hrun)) Hcount).
Defined.

(** 56000 samples of 0.25: the energy is 0.0625 and the buffer is emptied. *)
Lemma energy_drain_witness :
  48000 <= Z.of_nat (length (audio_buffer Sample.noisy)) /\
  drained_energy (audio_buffer Sample.noisy)
    = Some (np_mean (map f32_square (audio_buffer Sample.noisy))) /\
  np_mean (map f32_square (audio_buffer Sample.noisy)) = Sample.sixteenth /\
  audio_buffer (detect_yawn Sample.noisy) = [].
Proof.
  assert (Hlen : 48000 <= Z.of_nat (length (audio_buffer Sample.noisy)))
    by (vm_compute; discriminate).
  destruct (energy_drain (Sample.env_at Sample.boundary) Sample.noisy)
    as (_ & Hlong & _).
  destruct (Hlong Hlen) as (Henergy & Hbuffer & _).
  split; [exact Hlen|]. split; [exact Henergy|].
  split; [vm_compute; reflexivity | exact Hbuffer].
Defined.

(** The loud buffer adds one yawn; the silent one adds none. *)
Lemma yawn_count_step_witness :
  drained_energy (audio_buffer Sample.noisy) = Some Sample.sixteenth /\
  f32_gt (Numpy := Sample.numpy) Sample.sixteenth 0.02 = true /\
  yawn_count (before_decision (Sample.env_at 1699999804) Sample.noisy) = 3 /\
  yawn_count (detect_yawn Sample.quiet) = 2.
Proof.
  assert (Henergy : drained_energy (audio_buffer Sample.noisy)
                    = Some Sample.sixteenth) by (vm_compute; reflexivity).
  assert (Hgt : f32_gt (Numpy := Sample.numpy) Sample.sixteenth 0.02 = true)
    by (vm_compute; reflexivity).
  destruct yawn_count_step as [Hstep Hsilence].
  split; [exact Henergy|]. split; [exact Hgt|]. split.
  - exact (proj1 (Hstep Sample.numpy (Sample.env_at 1699999804) Sample.noisy)
             Sample.sixteenth Henergy Hgt).
  - exact (proj1 (proj2 (proj2 (proj2
             (Hsilence Binary32.sin3 Sample.quiet eq_refl))))).
Defined.

(** A call 1.5 seconds after the last tick changes nothing. *)
Lemma early_tick_is_noop_witness :
  (clock (Sample.env_at 1699999001.5)
   - last_update (Sample.analyzer_with 2 1699999000) <? 3)%float = true /\
  update (Sample.env_at 1699999001.5) (Sample.analyzer_with 2 1699999000)
    = Sample.analyzer_with 2 1699999000.
Proof.
  assert (Hearly : (clock (Sample.env_at 1699999001.5)
                    - last_update (Sample.analyzer_with 2 1699999000)
                    <? 3)%float = true) by (vm_compute; reflexivity).
  split; [exact Hearly|].
  exact (proj1 (early_tick_is_noop (Sample.env_at 1699999001.5)
                  (Sample.analyzer_with 2 1699999000) Hearly)).
Defined.

(** 150 values appended to an empty history: the last 100 remain. *)
Lemma steering_history_bounded_witness :
  (length (@nil nat) <= 100)%nat /\
  (100 <= length (seq 0 150))%nat /\
  Deque.extend 100 [] (seq 0 150)
    = skipn (length (seq 0 150) - 100) (seq 0 150) /\
  length (Deque.extend 100 [] (seq 0 150)) = 100%nat.
Proof.
  assert (Hd : (length (@nil nat) <= 100)%nat) by (cbn; lia).
  assert (Hxs : (100 <= length (seq 0 150))%nat) by (rewrite length_seq; lia).
  split; [exact Hd|]. split; [exact Hxs|].
  exact (proj2 (proj2 (proj1 steering_history_bounded nat [] (seq 0 150) Hd))
           Hxs).
Defined.

(** A forced yawn is accepted, and a second one 1.5 seconds later is not. *)
Lemma forced_yawn_witness :
  let u := start (Sample.analyzer_with 2 1699999000) in
  let u' := handle_event 1699999010 u (KEYDOWN K_h) in
  (2 <? 1699999010 - last_yawn_sim_time u)%float = true /\
  (2 <? 1699999011.5 - 1699999010)%float = false /\
  yawn_count (analyzer u') = 3 /\
  last_yawn_sim_time u' = 1699999010%float /\
  handle_event 1699999011.5 u' (KEYDOWN K_h) = u'.
Proof.
  intros u u'.
  assert (Hfar : (2 <? 1699999010 - last_yawn_sim_time u)%float = true)
    by (vm_compute; reflexivity).
  assert (Hnear : (2 <? 1699999011.5 - 1699999010)%float = false)
    by (vm_compute; reflexivity).
  destruct (proj1 (forced_yawn 1699999010 u) Hfar) as (Hcount & Hlast & Hagain).
  split; [exact Hfar|]. split; [exact Hnear|]. split; [exact Hcount|].
  split; [exact Hlast|].
  exact (Hagain 1699999011.5%float u' Hlast Hnear).
Defined.

(** A tick one second past the boundary, on a count of 4: the count is
    reset and the level is CRITICAL. *)
Lemma reset_after_decision_witness :
  rate_limited (clock (Sample.env_at 1699999801))
               (Sample.analyzer_with 4 1699999795) = false /\
  reset_due (clock (Sample.env_at 1699999801)) = true /\
  3 <= yawn_count (before_decision (Sample.env_at 1699999801)
                                   (Sample.analyzer_with 4 1699999795)) /\
  yawn_count (update (Sample.env_at 1699999801)
                     (Sample.analyzer_with 4 1699999795)) = 0 /\
  fatigue_level (update (Sample.env_at 1699999801)
                        (Sample.analyzer_with 4 1699999795)) = CRITICAL.
Proof.
  assert (Hrun : rate_limited (clock (Sample.env_at 1699999801))
                   (Sample.analyzer_with 4 1699999795) = false)
    by (vm_compute; reflexivity).
  assert (Hreset : reset_due (clock (Sample.env_at 1699999801)) = true)
    by (vm_compute; reflexivity).
  assert (Hcount : 3 <= yawn_count (before_decision
                     (Sample.env_at 1699999801)
                     (Sample.analyzer_with 4 1699999795)))
    by (vm_compute; discriminate).
  assert (Hfour : 4 <= yawn_count (before_decision
                     (Sample.env_at 1699999801)
                     (Sample.analyzer_with 4 1699999795)))
    by (vm_compute; discriminate).
  destruct (reset_after_decision (Sample.env_at 1699999801)
              (Sample.analyzer_with 4 1699999795) Hrun Hreset Hcount)
    as (_ & Hzero & _ & Hcritical & _).
  split; [exact Hrun|]. split; [exact Hreset|]. split; [exact Hcount|].
  split; [exact Hzero | exact (proj2 Hcritical Hfour)].
Defined.

(** * Further properties of the code *)

(** ** Binary64 facts used below *)

Lemma SFsub_diag (x : spec_float) :
  SFsub prec emax x x = S754_zero false \/ SFsub prec emax x x = S754_nan.
Proof.
  destruct x as [s | s | | s m e]; cbn.
  - left. destruct s; reflexivity.
  - right. destruct s; reflexivity.
  - right. reflexivity.
  - left. rewrite Z.sub_diag. reflexivity.
Qed.

(** [t - t] is [+0.0] or NaN, never above 2. *)
Lemma sub_diag_not_above_2 (t : float) : (2 <? t - t)%float = false.
Proof.
  rewrite ltb_spec, sub_spec. unfold SF64sub.
  destruct (SFsub_diag (Prim2SF t)) as [-> | ->]; vm_compute; reflexivity.
Qed.

Lemma finite_positive (t : float) :
  (0 <? t)%float = true -> (t <? infinity)%float = true ->
  exists m e, Prim2SF t = S754_finite false m e.
Proof.
  rewrite !ltb_spec.
  change (Prim2SF 0) with (S754_zero false).
  change (Prim2SF infinity) with (S754_infinity false).
  destruct (Prim2SF t) as [s | s | | s m e]; try destruct s; cbn;
    try discriminate.
  intros _ _. eauto.
Qed.

(** For a finite positive [t], [t - t] is [+0.0], below 3. *)
Lemma sub_diag_below_3 (t : float) :
  (0 <? t)%float = true -> (t <? infinity)%float = true ->
  (t - t <? 3)%float = true.
Proof.
  intros H0 Hinf. destruct (finite_positive t H0 Hinf) as (m & e & Ht).
  rewrite ltb_spec, sub_spec, Ht. unfold SF64sub. cbn [SFsub].
  rewrite Z.sub_diag. vm_compute. reflexivity.
Qed.

Lemma above_one_not_zero (m : float) :
  (1 <? m)%float = true -> is_zero m = false.
Proof.
  unfold is_zero. rewrite ltb_spec, eqb_spec.
  change (Prim2SF 0) with (S754_zero false).
  replace (Prim2SF 1) with (S754_finite false 4503599627370496 (-52))
    by (vm_compute; reflexivity).
  destruct (Prim2SF m) as [s | s | | s m' e']; try destruct s; cbn;
    try discriminate; reflexivity.
Qed.

(** ** The audio buffer between the capture thread and the tick *)

Section Capture.

Context {N : Numpy}.

Lemma set_audio_buffer_same (s : FatigueAnalyzer) :
  set_audio_buffer (audio_buffer s) s = s.
Proof. destruct s. reflexivity. Qed.

Lemma set_audio_buffer_twice (b b' : list float32) (s : FatigueAnalyzer) :
  set_audio_buffer b' (set_audio_buffer b s) = set_audio_buffer b' s.
Proof. reflexivity. Qed.

Lemma capture_audio_buffer (reads : list ReadResult) (s : FatigueAnalyzer) :
  _capture_audio reads s
  = set_audio_buffer (audio_buffer s ++ delivered reads) s.
Proof.
  unfold _capture_audio. revert s.
  induction reads as [|r reads IH]; intros s; cbn [fold_left].
  - cbn [delivered flat_map]. rewrite app_nil_r.
    symmetry. apply set_audio_buffer_same.
  - rewrite IH. destruct r as [audio_data|]; cbn [capture_chunk].
    + unfold add_audio_data. cbn [audio_buffer set_audio_buffer].
      rewrite set_audio_buffer_twice.
      cbn [delivered flat_map]. rewrite app_assoc. reflexivity.
    + reflexivity.
Qed.

(** X1: the capture loop appends the chunks it reads to the buffer in the
    order it reads them; a read that raises adds nothing and loses
    nothing; no other field of the analyzer changes, and no sample is
    ever dropped for lack of room. *)
Theorem capture_accumulates (reads : list ReadResult) (s : FatigueAnalyzer) :
  _capture_audio reads s
    = set_audio_buffer (audio_buffer s ++ delivered reads) s /\
  audio_buffer (_capture_audio reads s) = audio_buffer s ++ delivered reads /\
  length (audio_buffer (_capture_audio reads s))
    = (length (audio_buffer s) + length (delivered reads))%nat.
Proof.
  assert (H := capture_audio_buffer reads s).
  rewrite H. cbn [audio_buffer set_audio_buffer].
  rewrite length_app. repeat split.
Qed.

(** X2: the stream delivers chunks of [AUDIO_CHUNK] = 1024 samples.  After
    [k] chunks on an empty buffer the buffer holds [1024 * k] samples, and
    the next tick finds an energy to compute exactly when [k >= 47]. *)
Theorem chunks_until_ready (chunks : list (list float32)) (t t' : float) :
  Forall (fun c => Z.of_nat (length c) = AUDIO_CHUNK) chunks ->
  let s := _capture_audio (map ReadChunk chunks) (init t t') in
  Z.of_nat (length (audio_buffer s)) = 1024 * Z.of_nat (length chunks) /\
  (drained_energy (audio_buffer s) <> None <-> 47 <= Z.of_nat (length chunks)).
Proof.
  intros Hchunks s.
  assert (Hlen : Z.of_nat (length (audio_buffer s))
                 = 1024 * Z.of_nat (length chunks)).
  { subst s. rewrite capture_audio_buffer.
    cbn [audio_buffer set_audio_buffer init app].
    induction Hchunks as [|c chunks Hc _ IH].
    - reflexivity.
    - change (delivered (map ReadChunk (c :: chunks)))
        with (c ++ delivered (map ReadChunk chunks)).
      rewrite length_app, Nat2Z.inj_add, IH, Hc.
      cbn [length]. unfold AUDIO_CHUNK. lia. }
  split; [exact Hlen|].
  unfold drained_energy. rewrite Hlen. unfold AUDIO_SAMPLE_RATE.
  destruct (Z.leb_spec (16000 * 3) (1024 * Z.of_nat (length chunks)));
    split; intros; try congruence; lia.
Qed.

Lemma audio_buffer_update (env : TickEnv) (s : FatigueAnalyzer) :
  audio_buffer (update env s) =
  if rate_limited (clock env) s then audio_buffer s
  else match drained_energy (audio_buffer s) with
       | Some _ => []
       | None => audio_buffer s
       end.
Proof.
  unfold update. destruct (rate_limited (clock env) s); [reflexivity|].
  unfold analyse.
  rewrite audio_buffer_periodic_reset, audio_buffer_decide,
    audio_buffer_before_decision.
  apply audio_buffer_detect_yawn.
Qed.

(** X3: when the passes of the capture loop and the calls of [update] do
    not overlap, every sample that was in the buffer or was captured is
    read by exactly one energy computation or is still in the buffer:
    what was there and what came in equals, in order, what was scored
    followed by what is left. *)
Theorem samples_scored_once (actions : list Action) (s : FatigueAnalyzer) :
  audio_buffer s ++ captured_samples actions
  = scored_samples actions s ++ audio_buffer (fold_left perform actions s).
Proof.
  revert s. induction actions as [|a actions IH]; intros s.
  - cbn. rewrite app_nil_r. reflexivity.
  - cbn [fold_left scored_samples captured_samples flat_map].
    rewrite <- app_assoc, <- IH.
    fold (captured_samples actions). rewrite !app_assoc. f_equal.
    destruct a as [[audio_data|]|env]; cbn [perform scored capture_chunk].
    + reflexivity.
    + rewrite app_nil_r. reflexivity.
    + rewrite audio_buffer_update, app_nil_r.
      destruct (rate_limited (clock env) s); [reflexivity|].
      destruct (drained_energy (audio_buffer s));
        [rewrite app_nil_r|]; reflexivity.
Qed.

End Capture.

(** ** The voice alert *)

Section VoiceAlert.

Context {N : Numpy}.

(** X4: [_voice_alert] speaks only when at least 30 seconds have passed
    since [last_alert_time], which starts at the construction of the
    analyzer: a request within 30 seconds of the start, or of the last
    spoken alert, says nothing and leaves the analyzer as it is.  A spoken
    alert changes [last_alert_time] and no other field. *)
Theorem voice_alert_rate_limit (ct : float) (message : String.string)
  (s : FatigueAnalyzer) :
  ((30 <=? ct - last_alert_time s)%float = false ->
     _voice_alert ct message s = (s, [])) /\
  (forall t t' : float,
     (30 <=? ct - t')%float = false ->
     _voice_alert ct message (init t t') = (init t t', [])) /\
  ((30 <=? ct - last_alert_time s)%float = true ->
     let s' := fst (_voice_alert ct message s) in
     snd (_voice_alert ct message s) = [message] /\
     s' = set_last_alert_time ct s /\
     (forall (ct2 : float) (message2 : String.string),
        (30 <=? ct2 - ct)%float = false ->
        _voice_alert ct2 message2 s' = (s', []))).
Proof.
  unfold _voice_alert.
  change (PyFloat.of_int 30) with 30%float.
  split; [|split].
  - intros H. rewrite H. reflexivity.
  - intros t t' H. cbn [last_alert_time init]. rewrite H. reflexivity.
  - intros H. rewrite H. cbn [fst snd].
    split; [reflexivity|]. split; [reflexivity|].
    intros ct2 message2 H2. cbn [last_alert_time set_last_alert_time].
    change (PyFloat.of_int 30) with 30%float. rewrite H2. reflexivity.
Qed.

Lemma last_alert_time_update (env : TickEnv) (s : FatigueAnalyzer) :
  last_alert_time (update env s) = last_alert_time s.
Proof.
  unfold update. destruct (rate_limited (clock env) s); [reflexivity|].
  unfold analyse, periodic_reset, decide_fatigue.
  set (b := before_decision env s).
  assert (Hb : last_alert_time b = last_alert_time s).
  { subst b. unfold before_decision, record_steering, simulate_steering.
    cbn [last_alert_time set_torque_history].
    destruct (fatigue_level _); cbn [last_alert_time set_steering];
      unfold detect_yawn; cbn [audio_buffer set_last_update];
      destruct (drained_energy (audio_buffer s)) as [e|]; try reflexivity;
      destruct (f32_gt e YAWN_ENERGY_THRESHOLD); reflexivity. }
  rewrite <- Hb.
  destruct (reset_due (clock env)),
    (YAWN_COUNT_THRESHOLD + 1 <=? yawn_count b),
    (YAWN_COUNT_THRESHOLD <=? yawn_count b); reflexivity.
Qed.

Lemma last_alert_time_handle_event (ct : float) (u : Loop) (e : Event) :
  last_alert_time (analyzer (handle_event ct u e))
  = last_alert_time (analyzer u).
Proof.
  destruct e as [|[]|]; try reflexivity.
  unfold handle_event. destruct (yawn_accepted ct u); reflexivity.
Qed.

Lemma last_alert_time_events (ct : float) (evs : list Event) (u : Loop) :
  last_alert_time (analyzer (fold_left (handle_event ct) evs u))
  = last_alert_time (analyzer u).
Proof.
  revert u. induction evs as [|e evs IH]; intros u; cbn [fold_left].
  - reflexivity.
  - rewrite IH. apply last_alert_time_handle_event.
Qed.

Lemma last_alert_time_capture (s : FatigueAnalyzer) (r : ReadResult) :
  last_alert_time (capture_chunk s r) = last_alert_time s.
Proof. destruct r; reflexivity. Qed.

(** X5: nothing that runs, neither a tick, nor a key, nor the capture
    thread, calls [_voice_alert]: through any run of the program
    [last_alert_time] keeps the value it got at construction. *)
Theorem alert_never_triggered (steps : list Step) (u : Loop) :
  last_alert_time (analyzer (run_live steps u)) = last_alert_time (analyzer u).
Proof.
  revert u. induction steps as [|[r|f] steps IH]; intros u; cbn [run_live].
  - reflexivity.
  - rewrite IH. cbn [analyzer with_analyzer]. apply last_alert_time_capture.
  - destruct (running u); [|reflexivity].
    rewrite IH. unfold run_frame. cbn [analyzer with_analyzer].
    rewrite last_alert_time_update. apply last_alert_time_events.
Qed.

End VoiceAlert.

(** ** The rate limiter over a sequence of calls *)

Section RateLimiter.

Context {N : Numpy}.

Lemma last_cons {A : Type} (l : list A) (x d : A) :
  last (x :: l) d = last l x.
Proof.
  revert x d. induction l as [|y l IH]; intros x d; [reflexivity|].
  change (last (x :: y :: l) d) with (last (y :: l) d).
  rewrite (IH y d), (IH y x). reflexivity.
Qed.

(** X6: however often [update] is called, the ticks that execute are
    spaced: each comes at a clock reading [t] for which
    [t - previous < 3] is false, [previous] being the reading of the tick
    executed before it (or [last_update] at the start).  At the end
    [last_update] is the reading of the last executed tick. *)
Theorem executed_ticks_spaced (envs : list TickEnv) (s : FatigueAnalyzer) :
  spaced (last_update s) (executed_times envs s) /\
  last_update (updates envs s)
    = last (executed_times envs s) (last_update s).
Proof.
  unfold updates. revert s.
  induction envs as [|env envs IH]; intros s;
    cbn [executed_times fold_left].
  - split; [exact I | reflexivity].
  - destruct (rate_limited (clock env) s) eqn:Hlim.
    + rewrite update_rate_limited by exact Hlim. cbn [app]. apply IH.
    + destruct (IH (update env s)) as [Hspaced Hlast].
      rewrite last_update_executed in Hspaced, Hlast by exact Hlim.
      cbn [app spaced]. split; [split; [exact Hlim | exact Hspaced]|].
      rewrite Hlast, last_cons. reflexivity.
Qed.

(** X7: each executed tick appends one value to the steering history and
    a call that the rate limiter turns away appends none: after any calls
    the history holds as many entries as it had plus the number of
    executed ticks, up to 100. *)
Theorem history_counts_ticks (envs : list TickEnv) (s : FatigueAnalyzer) :
  (length (torque_history s) <= 100)%nat ->
  length (torque_history (updates envs s))
  = Nat.min 100 (length (torque_history s)
                 + length (executed_times envs s))%nat.
Proof.
  unfold updates. revert s.
  induction envs as [|env envs IH]; intros s Hs;
    cbn [executed_times fold_left].
  - cbn [length]. lia.
  - rewrite IH by (apply length_torque_history_update; exact Hs).
    rewrite torque_history_update.
    destruct (rate_limited (clock env) s); cbn [app length]; [reflexivity|].
    rewrite append_lastn by exact Hs.
    rewrite length_lastn, !length_app. cbn [length].
    unfold TORQUE_MAXLEN. lia.
Qed.

(** X8: the driver state an executed tick sets is drawn from the labels of
    the fatigue level the analyzer had before the tick, not of the level
    the tick decides: the label lags one tick behind the level. *)
Theorem driver_state_lags (env : TickEnv) (s : FatigueAnalyzer) :
  rate_limited (clock env) s = false ->
  In (driver_state (update env s)) (vocabulary (fatigue_level s)).
Proof.
  intros Hrun. rewrite update_executed by exact Hrun.
  unfold analyse, periodic_reset, decide_fatigue.
  set (b := before_decision env s).
  assert (Hb : In (driver_state b) (vocabulary (fatigue_level s))).
  { subst b. unfold before_decision, record_steering.
    cbn [driver_state set_torque_history].
    assert (Hl : fatigue_level (detect_yawn (set_last_update (clock env) s))
                 = fatigue_level s).
    { unfold detect_yawn. cbn [audio_buffer set_last_update].
      destruct (drained_energy (audio_buffer s)) as [e|]; [|reflexivity].
      destruct (f32_gt e YAWN_ENERGY_THRESHOLD); reflexivity. }
    unfold simulate_steering. rewrite Hl.
    destruct (fatigue_level s); cbn [driver_state set_steering vocabulary];
      unfold PyRandom.choices2;
      match goal with |- context [if ?c then _ else _] => destruct c end;
      cbn; auto. }
  destruct (reset_due (clock env)),
    (YAWN_COUNT_THRESHOLD + 1 <=? yawn_count b),
    (YAWN_COUNT_THRESHOLD <=? yawn_count b); exact Hb.
Qed.

End RateLimiter.

(** ** The yawn count over a run *)

Section YawnCountOverRuns.

Context {N : Numpy}.

Lemma yawn_count_update (env : TickEnv) (s : FatigueAnalyzer) :
  yawn_count (update env s) =
  if rate_limited (clock env) s then yawn_count s
  else if reset_due (clock env) then 0
  else yawn_count (detect_yawn s).
Proof.
  unfold update. destruct (rate_limited (clock env) s); [reflexivity|].
  unfold analyse.
  rewrite yawn_count_periodic_reset, yawn_count_decide,
    yawn_count_before_decision.
  reflexivity.
Qed.

Lemma yawn_count_detect_yawn_bounds (s : FatigueAnalyzer) :
  yawn_count s <= yawn_count (detect_yawn s) <= yawn_count s + 1.
Proof.
  rewrite yawn_count_detect_yawn.
  destruct (drained_energy (audio_buffer s)) as [e|]; [|lia].
  destruct (f32_gt e YAWN_ENERGY_THRESHOLD); lia.
Qed.

Lemma yawn_count_update_nonneg (env : TickEnv) (s : FatigueAnalyzer) :
  0 <= yawn_count s -> 0 <= yawn_count (update env s).
Proof.
  intros H. rewrite yawn_count_update.
  pose proof (yawn_count_detect_yawn_bounds s).
  destruct (rate_limited (clock env) s), (reset_due (clock env)); lia.
Qed.

Lemma yawn_count_handle_event (ct : float) (u : Loop) (e : Event) :
  yawn_count (analyzer (handle_event ct u e)) =
  if is_reset_key e then 0
  else if is_yawn_key e && yawn_accepted ct u
  then yawn_count (analyzer u) + 1
  else yawn_count (analyzer u).
Proof.
  destruct e as [|[]|]; try reflexivity.
  unfold handle_event. cbn [is_reset_key is_yawn_key andb].
  destruct (yawn_accepted ct u); reflexivity.
Qed.

Lemma yawn_count_events_nonneg (ct : float) (evs : list Event) (u : Loop) :
  0 <= yawn_count (analyzer u) ->
  0 <= yawn_count (analyzer (fold_left (handle_event ct) evs u)).
Proof.
  revert u. induction evs as [|e evs IH]; intros u H; cbn [fold_left].
  - exact H.
  - apply IH. rewrite yawn_count_handle_event.
    destruct (is_reset_key e), (is_yawn_key e && yawn_accepted ct u); lia.
Qed.

Lemma reachable_live (steps : list Step) (u : Loop) :
  0 <= yawn_count (analyzer u) ->
  (length (torque_history (analyzer u)) <= 100)%nat ->
  In (simulation_speed (analyzer u)) reachable_speeds ->
  let a := analyzer (run_live steps u) in
  0 <= yawn_count a /\
  (length (torque_history a) <= 100)%nat /\
  In (simulation_speed a) reachable_speeds.
Proof.
  revert u. induction steps as [|[r|f] steps IH]; intros u Hy Hh Hv;
    cbn [run_live].
  - repeat split; assumption.
  - apply IH; cbn [analyzer with_analyzer]; destruct r; assumption.
  - destruct (running u); [|repeat split; assumption].
    apply IH; unfold run_frame; cbn [analyzer with_analyzer].
    + apply yawn_count_update_nonneg, yawn_count_events_nonneg, Hy.
    + apply length_torque_history_update.
      rewrite torque_history_events. exact Hh.
    + rewrite simulation_speed_update. apply reachable_events. exact Hv.
Qed.

(** X9: in every state the program reaches, whatever the capture thread
    delivers between the frames and whatever the keys and the clock, the
    yawn count is not negative, the steering history has at most 100
    entries and the simulation speed lies in [0.5, 3.0]. *)
Theorem reachable_state_invariants (steps : list Step) (t t' : float) :
  let a := analyzer (run_live steps (start (init t t'))) in
  0 <= yawn_count a /\
  (length (torque_history a) <= 100)%nat /\
  (0.5 <=? simulation_speed a)%float = true /\
  (simulation_speed a <=? 3.0)%float = true.
Proof.
  destruct (reachable_live steps (start (init t t'))) as (Hy & Hh & Hv).
  - cbn. lia.
  - cbn. lia.
  - apply reachable_init.
  - cbv zeta. destruct (reachable_in_range _ Hv) as [Hlo Hhi].
    repeat split; assumption.
Qed.

Lemma drained_energy_empty : drained_energy [] = None.
Proof. reflexivity. Qed.

Lemma quiet_update (env : TickEnv) (s : FatigueAnalyzer) :
  audio_buffer s = [] -> 0 <= yawn_count s ->
  audio_buffer (update env s) = [] /\
  0 <= yawn_count (update env s) <= yawn_count s.
Proof.
  intros Hb Hy. split.
  - rewrite audio_buffer_update, Hb, drained_energy_empty.
    destruct (rate_limited _ _); reflexivity.
  - rewrite yawn_count_update, yawn_count_detect_yawn, Hb,
      drained_energy_empty.
    destruct (rate_limited (clock env) s), (reset_due (clock env)); lia.
Qed.

Lemma audio_buffer_handle_event (ct : float) (u : Loop) (e : Event) :
  audio_buffer (analyzer (handle_event ct u e)) = audio_buffer (analyzer u).
Proof.
  destruct e as [|[]|]; try reflexivity.
  unfold handle_event. destruct (yawn_accepted ct u); reflexivity.
Qed.

Lemma quiet_events (ct : float) (evs : list Event) (u : Loop) :
  0 <= yawn_count (analyzer u) ->
  let u' := fold_left (handle_event ct) evs u in
  audio_buffer (analyzer u') = audio_buffer (analyzer u) /\
  0 <= yawn_count (analyzer u')
    <= yawn_count (analyzer u) + Z.of_nat (length (filter is_yawn_key evs)).
Proof.
  revert u. induction evs as [|e evs IH]; intros u Hy; cbn [fold_left].
  - cbn. split; [reflexivity | lia].
  - assert (He : 0 <= yawn_count (analyzer (handle_event ct u e))
                   <= yawn_count (analyzer u)
                      + (if is_yawn_key e then 1 else 0)).
    { rewrite yawn_count_handle_event.
      destruct (is_reset_key e), (is_yawn_key e), (yawn_accepted ct u);
        cbn [andb]; lia. }
    destruct (IH (handle_event ct u e)) as [Hb Hc]; [lia|].
    rewrite Hb, audio_buffer_handle_event. split; [reflexivity|].
    cbn [filter]. destruct (is_yawn_key e); cbn [length]; lia.
Qed.

Lemma yawn_presses_cons (f : Frame) (frames : list Frame) :
  yawn_presses (f :: frames)
  = Z.of_nat (length (filter is_yawn_key (events f))) + yawn_presses frames.
Proof.
  unfold yawn_presses. cbn [flat_map].
  rewrite filter_app, length_app. lia.
Qed.

Lemma yawn_presses_nonneg (frames : list Frame) : 0 <= yawn_presses frames.
Proof. unfold yawn_presses. lia. Qed.

Lemma quiet_run (frames : list Frame) (u : Loop) :
  audio_buffer (analyzer u) = [] -> 0 <= yawn_count (analyzer u) ->
  audio_buffer (analyzer (run frames u)) = [] /\
  0 <= yawn_count (analyzer (run frames u))
    <= yawn_count (analyzer u) + yawn_presses frames.
Proof.
  revert u. induction frames as [|f frames IH]; intros u Hb Hy; cbn [run].
  - unfold yawn_presses. cbn. split; [exact Hb | lia].
  - rewrite yawn_presses_cons.
    pose proof (yawn_presses_nonneg frames) as Hp.
    destruct (running u); [|split; [exact Hb | lia]].
    pose proof (quiet_events (frame_time f) (events f) u Hy) as Hq.
    cbv zeta in Hq. destruct Hq as [Hb' Hc']. rewrite Hb in Hb'.
    destruct (quiet_update (tick f) _ Hb' (proj1 Hc')) as [Hb'' Hc''].
    assert (Hframe : analyzer (run_frame f u)
              = update (tick f)
                  (analyzer (fold_left (handle_event (frame_time f))
                                       (events f) u))) by reflexivity.
    destruct (IH (run_frame f u)) as [Hb3 Hc3].
    + rewrite Hframe. exact Hb''.
    + rewrite Hframe. lia.
    + split; [exact Hb3|]. rewrite Hframe in Hc3. lia.
Qed.

(** X10: when the audio interface could not be opened the program runs
    without a capture thread.  Then the buffer stays empty, no tick ever
    detects a yawn, and the yawn count is at most the number of presses of
    the [h] key so far. *)
Theorem simulation_only_mode (frames : list Frame) (t t' : float) :
  let a := analyzer (run frames (start (init t t'))) in
  audio_buffer a = [] /\
  0 <= yawn_count a <= yawn_presses frames.
Proof.
  cbv zeta.
  destruct (quiet_run frames (start (init t t'))) as [Hb Hc].
  - reflexivity.
  - cbn. lia.
  - split; [exact Hb|]. cbn [yawn_count analyzer start init] in Hc. lia.
Qed.

(** X11: the events of one frame share the clock reading of the frame, so
    among them at most one press of the [h] key is accepted: over the
    events of a frame the yawn count grows by at most 1, however many
    presses there are. *)
Theorem one_forced_yawn_per_frame (ct : float) (evs : list Event) (u : Loop) :
  0 <= yawn_count (analyzer u) ->
  let u' := fold_left (handle_event ct) evs u in
  0 <= yawn_count (analyzer u') <= yawn_count (analyzer u) + 1.
Proof.
  intros Hy u'.
  set (c := yawn_count (analyzer u)) in *.
  assert (H : forall v : Loop,
            (last_yawn_sim_time v = last_yawn_sim_time u /\
             0 <= yawn_count (analyzer v) <= c) \/
            (last_yawn_sim_time v = ct /\
             0 <= yawn_count (analyzer v) <= c + 1) ->
            0 <= yawn_count (analyzer (fold_left (handle_event ct) evs v))
              <= c + 1).
  { clear u'. induction evs as [|e evs IH]; intros v Hv; cbn [fold_left].
    - destruct Hv as [[_ Hv] | [_ Hv]]; lia.
    - apply IH. destruct e as [|[]|]; cbn [handle_event]; try exact Hv.
      + cbn [analyzer with_analyzer last_yawn_sim_time yawn_count reset_demo
             set_steering set_fatigue_level set_yawn_count].
        destruct Hv as [[Ht _] | [Ht _]]; [left | right]; split;
          try exact Ht; lia.
      + destruct Hv as [[Ht Hv] | [Ht Hv]].
        * destruct (yawn_accepted ct v).
          -- right. cbn. split; [reflexivity | lia].
          -- left. split; [exact Ht | exact Hv].
        * unfold yawn_accepted. rewrite Ht.
          change (PyFloat.of_int 2 <? ct - ct)%float
            with (2 <? ct - ct)%float.
          rewrite sub_diag_not_above_2. right. split; [exact Ht | exact Hv]. }
  apply H. left. split; [reflexivity | lia].
Qed.

End YawnCountOverRuns.

(** ** Leaving the main loop *)

Section Quit.

Context {N : Numpy}.

Lemma running_handle_event (ct : float) (u : Loop) (e : Event) :
  running (handle_event ct u e) = running u && negb (is_quit e).
Proof.
  destruct e as [|[]|]; cbn [handle_event is_quit negb];
    try (unfold handle_event; destruct (yawn_accepted ct u));
    cbn [running stop with_analyzer simulate_yawn];
    rewrite ?andb_true_r, ?andb_false_r; reflexivity.
Qed.

Lemma running_events (ct : float) (evs : list Event) (u : Loop) :
  running (fold_left (handle_event ct) evs u)
  = running u && negb (existsb is_quit evs).
Proof.
  revert u. induction evs as [|e evs IH]; intros u; cbn [fold_left existsb].
  - rewrite andb_true_r. reflexivity.
  - rewrite IH, running_handle_event, negb_orb, andb_assoc. reflexivity.
Qed.

Lemma running_run_frame (f : Frame) (u : Loop) :
  running (run_frame f u) = running u && negb (existsb is_quit (events f)).
Proof. unfold run_frame. cbn [running with_analyzer]. apply running_events. Qed.

Lemma run_stopped (frames : list Frame) (u : Loop) :
  running u = false -> run frames u = u.
Proof. intros H. destruct frames; cbn [run]; [|rewrite H]; reflexivity. Qed.

(** X12: a QUIT event or the escape key ends the loop at the end of the
    frame in which it arrives: the other events of that frame are still
    handled and [update] is still called, and no later frame is.  Frames
    without such an event never end the loop. *)
Theorem quit_ends_after_frame (f : Frame) (rest : list Frame) (u : Loop) :
  running u = true ->
  (existsb is_quit (events f) = true ->
     run (f :: rest) u = run_frame f u /\
     running (run (f :: rest) u) = false) /\
  (existsb is_quit (events f) = false ->
     run (f :: rest) u = run rest (run_frame f u) /\
     running (run_frame f u) = true).
Proof.
  intros Hrun. cbn [run]. rewrite Hrun.
  pose proof (running_run_frame f u) as Hf. rewrite Hrun in Hf.
  split; intros Hq; rewrite Hq in Hf; cbn in Hf.
  - rewrite run_stopped by exact Hf. split; [reflexivity | exact Hf].
  - split; [reflexivity | exact Hf].
Qed.

End Quit.

(** ** The speed keys at the limits *)

Lemma reachable_top (s : float) :
  In s reachable_speeds -> Nat.iter 13 (speed_step Faster) s = 3.0%float.
Proof.
  unfold reachable_speeds. cbn [In]. intros H.
  repeat (destruct H as [<- | H]; [vm_compute; reflexivity|]).
  destruct H.
Qed.

Lemma reachable_bottom (s : float) :
  In s reachable_speeds -> Nat.iter 13 (speed_step Slower) s = 0.5%float.
Proof.
  unfold reachable_speeds. cbn [In]. intros H.
  repeat (destruct H as [<- | H]; [vm_compute; reflexivity|]).
  destruct H.
Qed.

Section SpeedLimits.

Context {N : Numpy}.

Lemma speed_repeat (c : SpeedCommand) (n : nat) (a : FatigueAnalyzer) :
  simulation_speed (fold_left adjust_speed (repeat c n) a)
  = Nat.iter n (speed_step c) (simulation_speed a).
Proof.
  revert a. induction n as [|n IH]; intros a; [reflexivity|].
  cbn [repeat fold_left]. rewrite IH, Nat.iter_succ_r.
  destruct c; reflexivity.
Qed.

Lemma iter_fixed {A : Type} (f : A -> A) (x : A) (n : nat) :
  f x = x -> Nat.iter n f x = x.
Proof.
  intros H. induction n as [|n IH]; [reflexivity|].
  rewrite Nat.iter_succ, IH. exact H.
Qed.

(** X13: the limits are reached and held.  From whatever speed a sequence
    of speed commands has led to, 13 presses of the increase key (or more)
    give exactly 3.0, and 13 presses of the decrease key (or more) give
    exactly 0.5. *)
Theorem speed_saturates (cmds : list SpeedCommand) (n : nat) (t t' : float) :
  (13 <= n)%nat ->
  simulation_speed
    (fold_left adjust_speed (cmds ++ repeat Faster n) (init t t'))
    = 3.0%float /\
  simulation_speed
    (fold_left adjust_speed (cmds ++ repeat Slower n) (init t t'))
    = 0.5%float.
Proof.
  intros Hn.
  assert (Hr := reachable_commands cmds (init t t') (reachable_init t t')).
  replace n with ((n - 13) + 13)%nat by lia.
  rewrite !fold_left_app, !speed_repeat, !Nat.iter_add.
  split.
  - rewrite reachable_top by exact Hr.
    apply iter_fixed. vm_compute. reflexivity.
  - rewrite reachable_bottom by exact Hr.
    apply iter_fixed. vm_compute. reflexivity.
Qed.

End SpeedLimits.

(** ** The level a tick decides, from the count before the tick *)

Section LevelFromCount.

Context {N : Numpy}.

Lemma fatigue_level_update (env : TickEnv) (s : FatigueAnalyzer) :
  rate_limited (clock env) s = false ->
  fatigue_level (update env s) =
  if 4 <=? yawn_count (detect_yawn s) then CRITICAL
  else if 3 <=? yawn_count (detect_yawn s) then WARNING else NORMAL.
Proof.
  intros Hrun. rewrite update_executed by exact Hrun. unfold analyse.
  rewrite fatigue_level_periodic_reset, fatigue_level_decide,
    yawn_count_before_decision.
  reflexivity.
Qed.

(** X14: the audio of one tick adds at most one yawn, so an executed tick
    raises the level by what the count before it allows: a count of at
    most 1 gives NORMAL and a count of 4 or more gives CRITICAL whatever
    the audio; CRITICAL needs a count of at least 3 before the tick and
    WARNING a count of 2 or 3. *)
Theorem level_from_count_before (env : TickEnv) (s : FatigueAnalyzer) :
  rate_limited (clock env) s = false ->
  let level := fatigue_level (update env s) in
  (yawn_count s <= 1 -> level = NORMAL) /\
  (4 <= yawn_count s -> level = CRITICAL) /\
  (level = CRITICAL -> 3 <= yawn_count s) /\
  (level = WARNING -> 2 <= yawn_count s <= 3) /\
  (level = NORMAL -> yawn_count s <= 2).
Proof.
  intros Hrun level. subst level.
  rewrite fatigue_level_update by exact Hrun.
  pose proof (yawn_count_detect_yawn_bounds s) as Hb.
  destruct (Z.leb_spec 4 (yawn_count (detect_yawn s)));
    destruct (Z.leb_spec 3 (yawn_count (detect_yawn s)));
    repeat split; intros; try reflexivity; try discriminate; lia.
Qed.

(** X15: a call of [update] right after the reset command, as in the frame
    of the space key, leaves the level NORMAL and a yawn count of 0 or 1,
    whether the tick executes or not and whatever the buffer holds. *)
Theorem update_after_reset (env : TickEnv) (s : FatigueAnalyzer) :
  let s' := update env (reset_demo s) in
  fatigue_level s' = NORMAL /\ 0 <= yawn_count s' <= 1.
Proof.
  cbv zeta.
  assert (Hc : yawn_count (reset_demo s) = 0) by reflexivity.
  destruct (rate_limited (clock env) (reset_demo s)) eqn:Hlim.
  - rewrite update_rate_limited by exact Hlim.
    split; [reflexivity | rewrite Hc; lia].
  - pose proof (yawn_count_detect_yawn_bounds (reset_demo s)) as Hb.
    rewrite Hc in Hb. split.
    + rewrite fatigue_level_update by exact Hlim.
      destruct (Z.leb_spec 4 (yawn_count (detect_yawn (reset_demo s))));
        destruct (Z.leb_spec 3 (yawn_count (detect_yawn (reset_demo s))));
        try reflexivity; lia.
    + rewrite yawn_count_update, Hlim.
      destruct (reset_due (clock env)); lia.
Qed.

(** X17: two calls of [update] at the same clock reading act as one: for a
    finite positive reading, the second call is turned away by the rate
    limiter whether the first executed or not. *)
Theorem update_same_instant (env env2 : TickEnv) (s : FatigueAnalyzer) :
  clock env2 = clock env ->
  (0 <? clock env)%float = true ->
  (clock env <? infinity)%float = true ->
  update env2 (update env s) = update env s.
Proof.
  intros Hsame Hpos Hfin.
  apply update_rate_limited. rewrite Hsame.
  destruct (rate_limited (clock env) s) eqn:Hlim.
  - rewrite update_rate_limited by exact Hlim. exact Hlim.
  - unfold rate_limited. rewrite last_update_executed by exact Hlim.
    apply sub_diag_below_3; assumption.
Qed.

End LevelFromCount.

(** ** The steering chart *)

Lemma at_least_one_not_zero (m : float) :
  is_zero (Chart.at_least_one m) = false.
Proof.
  unfold Chart.at_least_one.
  change (PyFloat.of_int 1) with 1%float.
  destruct (1 <? m)%float eqn:E.
  - apply above_one_not_zero. exact E.
  - reflexivity.
Qed.

Lemma point_y_defined (m t : float) :
  Chart.point_y (Chart.at_least_one m) t
  = Some (490 - t / Chart.at_least_one m * 30)%float.
Proof.
  unfold Chart.point_y, Chart.truediv.
  rewrite at_least_one_not_zero. reflexivity.
Qed.

Lemma point_x_table :
  forallb (fun n =>
    forallb (fun i => x_in_panel_of (Chart.point_x (Z.of_nat n) (Z.of_nat i)))
            (seq 0 n))
    (seq 1 100) = true.
Proof. vm_compute. reflexivity. Qed.

Lemma point_x_in_panel (n i : Z) :
  0 <= i < n -> n <= 100 ->
  x_in_panel_of (Chart.point_x n i) = true.
Proof.
  intros Hi Hn.
  pose proof point_x_table as H.
  rewrite forallb_forall in H.
  specialize (H (Z.to_nat n)). rewrite forallb_forall in H.
  specialize (fun Hin => H Hin (Z.to_nat i)).
  rewrite !Z2Nat.id in H by lia.
  apply H; apply in_seq; lia.
Qed.

Lemma points_from_defined (n : Z) (m : float) (history : list float) (i : Z) :
  0 <= i -> i + Z.of_nat (length history) <= n -> n <= 100 ->
  exists pts,
    Chart.points_from n (Chart.at_least_one m) i history = Some pts /\
    length pts = length history /\
    Forall (fun p => (100 <=? fst p)%float = true
                     /\ (fst p <? 900)%float = true) pts.
Proof.
  revert i. induction history as [|t rest IH]; intros i Hi Hlen Hn.
  - exists []. repeat split. constructor.
  - cbn [length] in Hlen. cbn [Chart.points_from].
    rewrite point_y_defined.
    pose proof (point_x_in_panel n i ltac:(lia) Hn) as Hx.
    unfold x_in_panel_of in Hx.
    destruct (Chart.point_x n i) as [x|]; [|discriminate].
    apply andb_prop in Hx. destruct Hx as [Hlo Hhi].
    destruct (IH (i + 1)) as (pts & -> & Hl & Hall); try lia.
    eexists. split; [reflexivity|]. cbn [length]. split; [lia|].
    constructor; [split; assumption | exact Hall].
Qed.

(** X16: on a history of at most 100 values, which is all the analyzer
    ever holds, computing the points of the chart raises nothing: the
    maximum is taken on a non-empty history only and the divisor
    [max(1, ...)] is never zero.  There is one point per value, and every
    abscissa lies between 100 and 900, inside the panel. *)
Theorem chart_points_defined (history : list float) :
  (length history <= 100)%nat ->
  exists pts,
    Chart.points history = Some pts /\
    length pts = length history /\
    Forall (fun p => (100 <=? fst p)%float = true
                     /\ (fst p <? 900)%float = true) pts /\
    Chart.draws_lines pts = (1 <? length history)%nat.
Proof.
  intros Hlen. unfold Chart.points.
  destruct history as [|t rest] eqn:Hh.
  - exists []. repeat split. constructor.
  - rewrite <- Hh in *. assert (Hm : exists m, Chart.max_abs history = Some m).
    { rewrite Hh. cbn [Chart.max_abs]. eauto. }
    destruct Hm as (m & ->).
    destruct (points_from_defined (Z.of_nat (length history)) m history 0)
      as (pts & -> & Hl & Hall); try lia.
    exists pts. unfold Chart.draws_lines. rewrite Hl.
    repeat split; assumption.
Qed.

(** ** The further statements on concrete data *)

(** 47 chunks of 1024 samples make 48128 samples, enough for a tick. *)
Lemma chunks_until_ready_witness :
  Forall (fun c => Z.of_nat (length c) = AUDIO_CHUNK) Scenario.chunks47 /\
  Z.of_nat (length (audio_buffer
    (_capture_audio (map ReadChunk Scenario.chunks47)
                    (init Sample.boundary Sample.boundary)))) = 1024 * 47 /\
  drained_energy (audio_buffer
    (_capture_audio (map ReadChunk Scenario.chunks47)
                    (init Sample.boundary Sample.boundary))) <> None.
Proof.
  assert (Hall : Forall (fun c => Z.of_nat (length c) = AUDIO_CHUNK)
                   Scenario.chunks47).
  { apply Forall_forall. intros c Hc.
    apply repeat_spec in Hc. subst c. vm_compute. reflexivity. }
  destruct (chunks_until_ready Scenario.chunks47
              Sample.boundary Sample.boundary Hall) as [Hlen Hready].
  split; [exact Hall|]. split; [exact Hlen|].
  apply Hready. vm_compute. discriminate.
Defined.

Section AlertExample.

Import String.

(** A request 10 seconds after the start says nothing; one 40 seconds
    after it speaks, and one 5 seconds later is dropped again. *)
Lemma voice_alert_rate_limit_witness :
  _voice_alert 1699999010 "rest"%string (Sample.analyzer_with 3 1699999000)
    = (Sample.analyzer_with 3 1699999000, []) /\
  snd (_voice_alert 1699999040 "rest"%string
         (Sample.analyzer_with 3 1699999000))
    = ["rest"%string] /\
  _voice_alert 1699999045 "rest"%string
    (fst (_voice_alert 1699999040 "rest"%string
            (Sample.analyzer_with 3 1699999000)))
  = (fst (_voice_alert 1699999040 "rest"%string
            (Sample.analyzer_with 3 1699999000)),
     []).
Proof.
  assert (Hearly : (30 <=? 1699999010
                    - last_alert_time (Sample.analyzer_with 3 1699999000))%float
                   = false) by (vm_compute; reflexivity).
  assert (Hlate : (30 <=? 1699999040
                   - last_alert_time (Sample.analyzer_with 3 1699999000))%float
                  = true) by (vm_compute; reflexivity).
  assert (Hagain : (30 <=? 1699999045 - 1699999040)%float = false)
    by (vm_compute; reflexivity).
  split.
  - exact (proj1 (voice_alert_rate_limit 1699999010 "rest"%string
                    (Sample.analyzer_with 3 1699999000)) Hearly).
  - destruct (proj2 (proj2 (voice_alert_rate_limit 1699999040 "rest"%string
                              (Sample.analyzer_with 3 1699999000))) Hlate)
      as (Hsaid & _ & Hdrop).
    split; [exact Hsaid|].
    exact (Hdrop 1699999045%float "rest"%string Hagain).
Defined.

End AlertExample.

(** Of three calls at 4, 5 and 8 seconds, two execute and two values are
    appended. *)
Lemma history_counts_ticks_witness :
  (length (torque_history (Sample.analyzer_with 0 1699999000)) <= 100)%nat /\
  length (executed_times Scenario.three_calls
            (Sample.analyzer_with 0 1699999000)) = 2%nat /\
  length (torque_history (updates Scenario.three_calls
                            (Sample.analyzer_with 0 1699999000))) = 2%nat.
Proof.
  assert (H0 : (length (torque_history (Sample.analyzer_with 0 1699999000))
                <= 100)%nat) by (cbn; lia).
  assert (H2 : length (executed_times Scenario.three_calls
                 (Sample.analyzer_with 0 1699999000)) = 2%nat)
    by (vm_compute; reflexivity).
  split; [exact H0|]. split; [exact H2|].
  rewrite (history_counts_ticks Scenario.three_calls
             (Sample.analyzer_with 0 1699999000) H0), H2.
  reflexivity.
Defined.

(** Four forced yawns on a NORMAL analyzer: the tick decides CRITICAL and
    the label is still one of NORMAL. *)
Lemma driver_state_lags_witness :
  rate_limited (clock (Sample.env_at 1699999004))
               (Sample.analyzer_with 4 1699999000) = false /\
  fatigue_level (Sample.analyzer_with 4 1699999000) = NORMAL /\
  fatigue_level (update (Sample.env_at 1699999004)
                        (Sample.analyzer_with 4 1699999000)) = CRITICAL /\
  In (driver_state (update (Sample.env_at 1699999004)
                           (Sample.analyzer_with 4 1699999000)))
     [Focused; SlightlyDistracted].
Proof.
  assert (Hrun : rate_limited (clock (Sample.env_at 1699999004))
                   (Sample.analyzer_with 4 1699999000) = false)
    by (vm_compute; reflexivity).
  split; [exact Hrun|]. split; [reflexivity|].
  split; [vm_compute; reflexivity|].
  exact (driver_state_lags (Sample.env_at 1699999004)
           (Sample.analyzer_with 4 1699999000) Hrun).
Defined.

(** Three presses of the [h] key in one frame count once. *)
Lemma one_forced_yawn_per_frame_witness :
  0 <= yawn_count (analyzer (start (Sample.analyzer_with 2 1699999000))) /\
  yawn_count (analyzer
    (fold_left (handle_event (frame_time Scenario.eager_frame))
               (events Scenario.eager_frame)
               (start (Sample.analyzer_with 2 1699999000)))) = 3 /\
  0 <= yawn_count (analyzer
    (fold_left (handle_event (frame_time Scenario.eager_frame))
               (events Scenario.eager_frame)
               (start (Sample.analyzer_with 2 1699999000)))) <= 2 + 1.
Proof.
  assert (H0 : 0 <= yawn_count
                      (analyzer (start (Sample.analyzer_with 2 1699999000))))
    by (vm_compute; discriminate).
  split; [exact H0|]. split; [vm_compute; reflexivity|].
  exact (one_forced_yawn_per_frame (frame_time Scenario.eager_frame)
           (events Scenario.eager_frame)
           (start (Sample.analyzer_with 2 1699999000)) H0).
Defined.

(** A frame that starts with QUIT still counts its forced yawn, and the
    frame after it is not run. *)
Lemma quit_ends_after_frame_witness :
  running (start (Sample.analyzer_with 2 1699999000)) = true /\
  existsb is_quit (events Scenario.closing_frame) = true /\
  run [Scenario.closing_frame; Scenario.eager_frame]
      (start (Sample.analyzer_with 2 1699999000))
  = run_frame Scenario.closing_frame
      (start (Sample.analyzer_with 2 1699999000)) /\
  yawn_count (analyzer
    (run [Scenario.closing_frame; Scenario.eager_frame]
         (start (Sample.analyzer_with 2 1699999000)))) = 3.
Proof.
  assert (Hrun : running (start (Sample.analyzer_with 2 1699999000)) = true)
    by reflexivity.
  assert (Hquit : existsb is_quit (events Scenario.closing_frame) = true)
    by reflexivity.
  split; [exact Hrun|]. split; [exact Hquit|]. split.
  - exact (proj1 (proj1 (quit_ends_after_frame Scenario.closing_frame
                           [Scenario.eager_frame]
                           (start (Sample.analyzer_with 2 1699999000)) Hrun)
                    Hquit)).
  - vm_compute. reflexivity.
Defined.

(** Two decreases, then 13 increases: exactly 3.0. *)
Lemma speed_saturates_witness :
  (13 <= 13)%nat /\
  simulation_speed
    (fold_left adjust_speed ([Slower; Slower] ++ repeat Faster 13)
               (init (N := Sample.numpy) Sample.boundary Sample.boundary))
  = 3.0%float.
Proof.
  assert (H : (13 <= 13)%nat) by lia.
  split; [exact H|].
  exact (proj1 (speed_saturates (N := Sample.numpy) [Slower; Slower] 13
                  Sample.boundary Sample.boundary H)).
Defined.

(** A count of 1 before the tick, with a loud buffer: still NORMAL. *)
Lemma level_from_count_before_witness :
  rate_limited (clock (Sample.env_at 1699999804))
    (set_yawn_count 1 Sample.noisy) = false /\
  yawn_count (set_yawn_count 1 Sample.noisy) <= 1 /\
  fatigue_level (update (Sample.env_at 1699999804)
                        (set_yawn_count 1 Sample.noisy)) = NORMAL.
Proof.
  assert (Hrun : rate_limited (clock (Sample.env_at 1699999804))
                   (set_yawn_count 1 Sample.noisy) = false)
    by (vm_compute; reflexivity).
  assert (Hc : yawn_count (set_yawn_count 1 Sample.noisy) <= 1)
    by (cbn; lia).
  split; [exact Hrun|]. split; [exact Hc|].
  exact (proj1 (level_from_count_before (Sample.env_at 1699999804)
                  (set_yawn_count 1 Sample.noisy) Hrun) Hc).
Defined.

(** A history of three values gives three points. *)
Lemma chart_points_defined_witness :
  (length [0.5; -2; 1]%float <= 100)%nat /\
  exists pts,
    Chart.points [0.5; -2; 1]%float = Some pts /\
    length pts = 3%nat.
Proof.
  assert (H : (length [0.5; -2; 1]%float <= 100)%nat) by (cbn; lia).
  split; [exact H|].
  destruct (chart_points_defined [0.5; -2; 1]%float H)
    as (pts & Hp & Hl & _).
  exists pts. split; [exact Hp | exact Hl].
Defined.

(** The same reading twice: the second call changes nothing. *)
Lemma update_same_instant_witness :
  (0 <? clock (Sample.env_at 1699999004))%float = true /\
  (clock (Sample.env_at 1699999004) <? infinity)%float = true /\
  update (Sample.env_at 1699999004)
    (update (Sample.env_at 1699999004) (Sample.analyzer_with 2 1699999000))
  = update (Sample.env_at 1699999004) (Sample.analyzer_with 2 1699999000).
Proof.
  assert (Hpos : (0 <? clock (Sample.env_at 1699999004))%float = true)
    by (vm_compute; reflexivity).
  assert (Hfin : (clock (Sample.env_at 1699999004) <? infinity)%float = true)
    by (vm_compute; reflexivity).
  split; [exact Hpos|]. split; [exact Hfin|].
  exact (update_same_instant (Sample.env_at 1699999004)
           (Sample.env_at 1699999004) (Sample.analyzer_with 2 1699999000)
           eq_refl Hpos Hfin).
Defined.
